(** * Uncle backend: token middleware and market-data enrichment

    A shallow embedding of the Hono worker of this repository (the Clerk
    deployment with its D1 holdings table and Tiingo enrichment, and the
    Keycloak deployment's middleware), with the properties the
    specification states about it.

    JavaScript values are modelled as far as the handlers look at them:
    parsed JSON documents, [undefined], and what a property read on a
    plain object can inherit from [Object.prototype].  Numbers are IEEE
    binary64, as in the runtime.  The collaborators the worker calls but
    does not define (the URL parser, jose's [jwtVerify], [fetch], the D1
    driver's parameter coercion) are fields of an environment record; the
    holdings table itself is explicit state. *)

From Stdlib Require Import ZArith Ascii String List Bool Lia.
From Stdlib Require Import Floats.PrimFloat Numbers.Cyclic.Int63.Uint63.
From stdpp Require Import base option list gmap strings pretty.

Set Warnings "-register-all".
Open Scope string_scope.
Open Scope Z_scope.

(** ** JSON documents and JavaScript values *)

(** What [JSON.parse] produces.  An object keeps its own properties as an
    association list read first-binding-wins. *)
Inductive json : Type :=
| JNull
| JBool (b : bool)
| JNumber (n : float)
| JString (s : string)
| JArray (xs : list json)
| JObject (props : list (string * json)).

(** What an expression of the handlers can evaluate to: a JSON document,
    [undefined], a function inherited from [Object.prototype], or
    [Object.prototype] itself (read through [__proto__]). *)
Inductive value : Type :=
| Undefined
| Json (j : json)
| Builtin (name : string)
| ObjectPrototype.

Definition js_null : value := Json JNull.

(** Own-property lookup in an object's property list. *)
Fixpoint assoc {A : Type} (k : string) (ps : list (string * A)) : option A :=
  match ps with
  | [] => None
  | (k', v) :: rest => if String.eqb k k' then Some v else assoc k rest
  end.

(** The function-valued properties every plain object inherits from
    [Object.prototype]; [__proto__] is its one accessor and is handled
    apart. *)
Definition object_prototype_methods : list string :=
  [ "constructor"; "hasOwnProperty"; "isPrototypeOf"; "propertyIsEnumerable";
    "toLocaleString"; "toString"; "valueOf";
    "__defineGetter__"; "__defineSetter__"; "__lookupGetter__"; "__lookupSetter__" ].

Definition is_prototype_method (k : string) : bool :=
  existsb (String.eqb k) object_prototype_methods.

(** ToBoolean. *)
Definition truthy (v : value) : bool :=
  match v with
  | Undefined => false
  | Json JNull => false
  | Json (JBool b) => b
  | Json (JNumber n) => negb (PrimFloat.is_zero n || PrimFloat.is_nan n)
  | Json (JString s) => negb (String.eqb s "")
  | Json (JArray _) => true
  | Json (JObject _) => true
  | Builtin _ => true
  | ObjectPrototype => true
  end.

(** [a || b] *)
Definition js_or (a b : value) : value := if truthy a then a else b.

(** A read [v.k] as the handlers make it, on a value that is not [null] or
    [undefined]: [sub] on the verified payload (always an object),
    [symbol], [name], [shares], [avg_price] on the request body, [ticker]
    on a provider item, and [last] on what the price map returns.  On a
    parsed JSON document none of the names read is defined on a built-in
    prototype in its chain, so only an object's own property can answer;
    [last], the one name read on an inherited function or on
    [Object.prototype], is defined on neither. *)
Definition get_named (v : value) (k : string) : value :=
  match v with
  | Json (JObject ps) =>
      match assoc k ps with
      | Some j => Json j
      | None => Undefined
      end
  | _ => Undefined
  end.

(** [v?.k] for the same property names. *)
Definition get_named_opt (v : value) (k : string) : value :=
  match v with
  | Undefined => Undefined
  | Json JNull => Undefined
  | _ => get_named v k
  end.

(** ToString and ToPropertyKey are defined after [outcome], since the
    conversion of an object can throw. *)

(** What [JSON.stringify] makes of a JSON document that went through the
    runtime: a number that is not finite is written [null] and negative
    zero is written [0]. *)
Fixpoint json_normal (j : json) : json :=
  match j with
  | JNumber n =>
      if PrimFloat.is_finite n
      then (if PrimFloat.is_zero n then JNumber PrimFloat.zero else JNumber n)
      else JNull
  | JArray xs => JArray (map json_normal xs)
  | JObject ps =>
      JObject ((fix props (l : list (string * json)) : list (string * json) :=
                  match l with
                  | [] => []
                  | (k, v) :: rest => (k, json_normal v) :: props rest
                  end) ps)
  | _ => j
  end.

(** [JSON.stringify] of a value: [None] where it yields [undefined]. *)
Definition stringify (v : value) : option json :=
  match v with
  | Undefined => None
  | Json j => Some (json_normal j)
  | Builtin _ => None
  | ObjectPrototype => Some (JObject [])
  end.

(** One property of an object literal as [JSON.stringify] writes it: a
    property whose value serialises to [undefined] is left out. *)
Definition property (k : string) (v : value) : list (string * json) :=
  match stringify v with
  | Some j => [(k, j)]
  | None => []
  end.

(** ** State, collaborators and the handler monad *)

(** A thrown JavaScript exception.  Everything thrown on the paths modelled
    here is an [Error] instance; the handlers only read its message. *)
Inductive exn : Type :=
| Error (message : string).

Definition errorMessage (e : exn) : string :=
  match e with Error m => m end.

Inductive outcome (A : Type) : Type :=
| Ok (a : A)
| Throw (e : exn).
Arguments Ok {A} a.
Arguments Throw {A} e.

Definition not_primitive : exn := Error "Cannot convert object to primitive value".

(** ToString of a JSON document, as a property key is computed from it.
    [number_to_string] is the runtime's Number::toString.  An array joins
    its elements with commas, [null] counting as the empty string.  A
    plain object answers through the inherited [toString]; one that has an
    own [toString] property (never callable in a parsed document) cannot
    be converted, and the conversion throws. *)
Fixpoint to_string (number_to_string : float -> string) (j : json) : outcome string :=
  match j with
  | JNull => Ok "null"
  | JBool true => Ok "true"
  | JBool false => Ok "false"
  | JNumber n => Ok (number_to_string n)
  | JString s => Ok s
  | JArray xs =>
      match (fix elements (l : list json) : outcome (list string) :=
               match l with
               | [] => Ok []
               | x :: rest =>
                   match (match x with
                          | JNull => Ok ""
                          | _ => to_string number_to_string x
                          end) with
                   | Throw e => Throw e
                   | Ok s =>
                       match elements rest with
                       | Throw e => Throw e
                       | Ok ss => Ok (s :: ss)
                       end
                   end
               end) xs with
      | Throw e => Throw e
      | Ok ss => Ok (String.concat "," ss)
      end
  | JObject ps =>
      match assoc "toString" ps with
      | Some _ => Throw not_primitive
      | None => Ok "[object Object]"
      end
  end.

(** ToPropertyKey of what a read of [item.ticker] yields: a JSON document
    or [undefined]. *)
Definition to_property_key (number_to_string : float -> string) (v : value)
  : outcome string :=
  match v with
  | Undefined => Ok "undefined"
  | Json j => to_string number_to_string j
  | Builtin name => Ok ("function " ++ name ++ "() { [native code] }")
  | ObjectPrototype => Ok "[object Object]"
  end.

(** A row of the [holdings] table of schema.sql, which is also the
    [Holding] interface of the worker. *)
Record Holding : Type := mkHolding {
  id : Z;
  user_id : string;
  symbol : string;
  name : string;
  shares : float;
  avg_price : float
}.

(** What the worker does to the outside, in order. *)
Inductive event : Type :=
| EvJwtVerify (token jwksUrl issuer : string)
| EvFetch (url authorization : string)
| EvConsoleError (label : string) (e : exn).

Record World : Type := mkWorld {
  holdings_table : list Holding;
  last_row_id : Z;
  trace : list event
}.

(** A [Response] of the [fetch] API, as far as the handlers read it:
    [ok] and the result of [json()]. *)
Record FetchResponse : Type := mkFetchResponse {
  ok : bool;
  json_body : outcome json
}.

(** How the D1 driver takes a bound JavaScript value for a TEXT column:
    it rejects the value, binds NULL, or binds a text. *)
Inductive bound_text : Type :=
| BindRejected (e : exn)
| BindNull
| BindText (s : string).

(** Deployment bindings and the collaborators' behaviour. *)
Record Env : Type := mkEnv {
  CLERK_ISSUER_URL : string;
  KEYCLOAK_ISSUER : string;
  TIINGO_API_TOKEN : string;
  (** [new URL(s)]: does the string parse as an absolute URL *)
  url_parses : string -> bool;
  (** jose's [jwtVerify(token, createRemoteJWKSet(url), { issuer })]: the
      payload object's own properties, or what it throws (key discovery
      included) *)
  jwtVerify : string -> string -> string -> outcome (list (string * json));
  (** [fetch(url, { headers: { Authorization } })] *)
  fetch : string -> string -> outcome FetchResponse;
  (** D1: [Some e] when the database cannot run statements *)
  d1_unavailable : option exn;
  d1_bind_text : value -> bound_text;
  (** SQLite's comparison of the INTEGER [id] column with a bound text *)
  d1_id_matches : string -> Z -> bool;
  number_to_string : float -> string
}.

(** Handlers run in a state-and-exception monad over [World]. *)
Definition M (A : Type) : Type := World -> outcome A * World.

Definition ret {A : Type} (a : A) : M A := fun w => (Ok a, w).

Definition throw {A : Type} (e : exn) : M A := fun w => (Throw e, w).

Definition bind {A B : Type} (m : M A) (k : A -> M B) : M B :=
  fun w =>
    match m w with
    | (Ok a, w') => k a w'
    | (Throw e, w') => (Throw e, w')
    end.

(** [try { m } catch (error) { h error }] *)
Definition try_catch {A : Type} (m : M A) (h : exn -> M A) : M A :=
  fun w =>
    match m w with
    | (Ok a, w') => (Ok a, w')
    | (Throw e, w') => h e w'
    end.

Definition lift {A : Type} (o : outcome A) : M A := fun w => (o, w).

(** The world with one more event at the end of its trace. *)
Definition log (ev : event) (w : World) : World :=
  mkWorld (holdings_table w) (last_row_id w) (trace w ++ [ev]).

Definition emit (ev : event) : M unit := fun w => (Ok tt, log ev w).

Notation "'do' x <- m ; k" := (bind m (fun x => k))
  (at level 10, x name, m at level 100, k at level 200).
Notation "'run' m ; k" := (bind m (fun _ => k))
  (at level 10, m at level 100, k at level 200).

(** The HTTP response a handler returns through [c.json(body, status)]. *)
Record Response : Type := mkResponse {
  status : Z;
  body : option json
}.

(** [c.json(v, status)]; the status defaults to 200. *)
Definition c_json (v : value) (st : Z) : Response := mkResponse st (stringify v).

Definition error_body (msg : string) : value :=
  Json (JObject [("error", JString msg)]).

Definition error_details_body (msg details : string) : value :=
  Json (JObject [("error", JString msg); ("details", JString details)]).

(** [c.json] of a body already written as [JSON.stringify] writes it. *)
Definition respond (j : json) (st : Z) : Response := mkResponse st (Some j).

(** ** The D1 holdings table *)

(** The statements the worker prepares against schema.sql, over the table
    held in [World].  A statement throws when the database is unavailable
    or the driver rejects a bound value.  Rows are kept in insertion
    order, which is the order a query returns them in; [last_row_id] is
    the AUTOINCREMENT counter, so an id is never reused. *)

Definition d1_ready (env : Env) : M unit :=
  match d1_unavailable env with
  | Some e => throw e
  | None => ret tt
  end.

Definition owned_by (u : string) (h : Holding) : bool := String.eqb (user_id h) u.

(** The rows [SELECT * FROM holdings WHERE user_id = ?] returns on a
    table, in table order. *)
Definition d1_select (env : Env) (userId : value) (table : list Holding)
  : outcome (list Holding) :=
  match d1_unavailable env with
  | Some e => Throw e
  | None =>
      match d1_bind_text env userId with
      | BindRejected e => Throw e
      | BindNull => Ok []
      | BindText u => Ok (List.filter (owned_by u) table)
      end
  end.

Definition select_holdings (env : Env) (userId : value) : M (list Holding) :=
  fun w => (d1_select env userId (holdings_table w), w).

(** The elements of a list, each kept at its first occurrence. *)
Fixpoint uniq (seen : list string) (l : list string) : list string :=
  match l with
  | [] => []
  | x :: rest =>
      if existsb (String.eqb x) seen then uniq seen rest
      else x :: uniq (x :: seen) rest
  end.

(** [SELECT DISTINCT symbol FROM holdings WHERE user_id = ?] *)
Definition select_distinct_symbols (env : Env) (userId : value) : M (list string) :=
  do rows <- select_holdings env userId;
  ret (uniq [] (map symbol rows)).

Definition not_null_violation (column : string) : exn :=
  Error ("NOT NULL constraint failed: holdings." ++ column).

(** [INSERT INTO holdings (user_id, symbol, name, shares, avg_price)
    VALUES (?, ?, ?, ?, ?)]; the result is [meta.last_row_id]. *)
Definition insert_holding (env : Env) (userId sym nm : value) (sh ap : float) : M Z :=
  run d1_ready env;
  match d1_bind_text env userId, d1_bind_text env sym, d1_bind_text env nm with
  | BindRejected e, _, _ => throw e
  | _, BindRejected e, _ => throw e
  | _, _, BindRejected e => throw e
  | BindNull, _, _ => throw (not_null_violation "user_id")
  | _, BindNull, _ => throw (not_null_violation "symbol")
  | _, _, BindNull => throw (not_null_violation "name")
  | BindText u, BindText s, BindText n =>
      fun w =>
        let new_id := last_row_id w + 1 in
        (Ok new_id,
         mkWorld (holdings_table w ++ [mkHolding new_id u s n sh ap]) new_id (trace w))
  end.

Definition delete_matches (env : Env) (idParam u : string) (h : Holding) : bool :=
  d1_id_matches env idParam (id h) && owned_by u h.

(** [DELETE FROM holdings WHERE id = ? AND user_id = ?]; the result is
    [meta.changes]. *)
Definition delete_holding (env : Env) (idParam : string) (userId : value) : M Z :=
  run d1_ready env;
  match d1_bind_text env userId with
  | BindRejected e => throw e
  | BindNull => ret 0
  | BindText u =>
      fun w =>
        (Ok (Z.of_nat (length (List.filter (delete_matches env idParam u) (holdings_table w)))),
         mkWorld (List.filter (fun h => negb (delete_matches env idParam u h)) (holdings_table w))
                 (last_row_id w) (trace w))
  end.

(** ** Rows and enriched rows as JSON *)

Definition number_of_Z (z : Z) : float := PrimFloat.of_uint63 (Uint63.of_Z z).

(** The object D1 returns for a row, columns in schema order. *)
Definition holding_props (h : Holding) : list (string * json) :=
  [ ("id", JNumber (number_of_Z (id h)));
    ("user_id", JString (user_id h));
    ("symbol", JString (symbol h));
    ("name", JString (name h));
    ("shares", JNumber (shares h));
    ("avg_price", JNumber (avg_price h)) ].

Definition holding_json (h : Holding) : json := JObject (holding_props h).

Definition normal_props (ps : list (string * json)) : list (string * json) :=
  map (fun kv => (fst kv, json_normal (snd kv))) ps.

(** ** The price map *)

(** [priceMap] is a plain object used as a map: its own properties, and
    its prototype when an assignment to [__proto__] has replaced
    [Object.prototype] by a quote record (whose own prototype is
    [Object.prototype]). *)
Record PriceMap : Type := mkPriceMap {
  own : gmap string json;
  proto : option (list (string * json))
}.

Definition priceMap_empty : PriceMap := mkPriceMap ∅ None.

(** [priceMap[k]] *)
Definition priceMap_get (pm : PriceMap) (k : string) : value :=
  match own pm !! k with
  | Some j => Json j
  | None =>
      match proto pm with
      | Some ps =>
          match assoc k ps with
          | Some j => Json j
          | None =>
              if String.eqb k "__proto__" then Json (JObject ps)
              else if is_prototype_method k then Builtin k
              else Undefined
          end
      | None =>
          if String.eqb k "__proto__" then ObjectPrototype
          else if is_prototype_method k then Builtin k
          else Undefined
      end
  end.

(** [priceMap[k] = item].  Every key but [__proto__] becomes an own
    property.  [__proto__] becomes one only when the map already has it or
    its replaced prototype has it as an own property; otherwise the
    assignment reaches the accessor of [Object.prototype], which replaces
    the map's prototype by [item].  Only an object can arrive under the key
    [__proto__], since only an object has a [ticker] (lemma
    [ticker_key_of_non_object]); on a primitive the accessor does
    nothing. *)
Definition priceMap_set (pm : PriceMap) (k : string) (item : json) : PriceMap :=
  if negb (String.eqb k "__proto__") then mkPriceMap (<[k := item]> (own pm)) (proto pm)
  else
    match own pm !! k, proto pm with
    | Some _, _ => mkPriceMap (<[k := item]> (own pm)) (proto pm)
    | None, Some ps =>
        match assoc k ps, item with
        | Some _, _ => mkPriceMap (<[k := item]> (own pm)) (proto pm)
        | None, JObject ps' => mkPriceMap (own pm) (Some ps')
        | None, _ => pm
        end
    | None, None =>
        match item with
        | JObject ps' => mkPriceMap (own pm) (Some ps')
        | _ => pm
        end
    end.

Definition null_property_read (k : string) : exn :=
  Error ("Cannot read properties of null (reading '" ++ k ++ "')").

(** [priceData.forEach((item) => { priceMap[item.ticker] = item; })] *)
Fixpoint forEach_item (nts : float -> string) (items : list json) (pm : PriceMap)
  : outcome PriceMap :=
  match items with
  | [] => Ok pm
  | JNull :: _ => Throw (null_property_read "ticker")
  | item :: rest =>
      match to_property_key nts (get_named (Json item) "ticker") with
      | Throw e => Throw e
      | Ok k => forEach_item nts rest (priceMap_set pm k item)
      end
  end.

(** The map built from the provider's body: filled only when the body is an
    array. *)
Definition build_priceMap (nts : float -> string) (priceData : json) : outcome PriceMap :=
  match priceData with
  | JArray items => forEach_item nts items priceMap_empty
  | _ => Ok priceMap_empty
  end.

(** ** The enrichment merger *)

Record EnrichedHolding : Type := mkEnriched {
  holding : Holding;
  currentPrice : value;
  priceData : value
}.

(** [{ ...holding, currentPrice: priceMap[holding.symbol]?.last || null,
       priceData: priceMap[holding.symbol] || null }] *)
Definition enrich (pm : PriceMap) (h : Holding) : EnrichedHolding :=
  mkEnriched h
    (js_or (get_named_opt (priceMap_get pm (symbol h)) "last") js_null)
    (js_or (priceMap_get pm (symbol h)) js_null).

Definition enrichedHoldings (pm : PriceMap) (holdings : list Holding) : list EnrichedHolding :=
  map (enrich pm) holdings.

(** An enriched row as [JSON.stringify] writes it. *)
Definition enriched_json (e : EnrichedHolding) : json :=
  JObject (normal_props (holding_props (holding e))
           ++ property "currentPrice" (currentPrice e)
           ++ property "priceData" (priceData e)).

(** ** Requests *)

(** [s.split(c)] *)
Fixpoint split_on (c : ascii) (s : string) : list string :=
  match s with
  | EmptyString => [EmptyString]
  | String a rest =>
      if Ascii.eqb a c then EmptyString :: split_on c rest
      else match split_on c rest with
           | [] => [String a EmptyString]
           | x :: xs => String a x :: xs
           end
  end.

Definition space : ascii := Ascii.ascii_of_nat 32.

(** What a handler reads of the request: the [Authorization] header, the
    result of [c.req.json()] and the [:id] route parameter. *)
Record Request : Type := mkRequest {
  authorization : option string;
  req_json : outcome json;
  param_id : string
}.

(** The verified payload, as [c.get('user')] returns it. *)
Definition user_value (payload : list (string * json)) : value := Json (JObject payload).

Definition missing_token_response : Response :=
  c_json (error_body "Unauthorized: Missing or invalid token") 401.

Definition invalid_token_response : Response :=
  c_json (error_body "Unauthorized: Invalid token") 401.

Definition jwt_failed_label : string := "JWT Verification failed:".

(** [await jwtVerify(token, createRemoteJWKSet(jwksUrl), { issuer })];
    a token that [split] left undefined is rejected by jose. *)
Definition call_jwtVerify (env : Env) (token : option string) (jwksUrl issuer : string)
  : M (list (string * json)) :=
  match token with
  | None => throw (Error "Compact JWS must be a string or Uint8Array")
  | Some t =>
      run emit (EvJwtVerify t jwksUrl issuer);
      lift (jwtVerify env t jwksUrl issuer)
  end.

(** The middleware's [catch] block: log, then answer 401. *)
Definition reject_token (error : exn) : M Response :=
  run emit (EvConsoleError jwt_failed_label error);
  ret invalid_token_response.

Definition invalid_url : exn := Error "Invalid URL".

(** [new URL(s)] *)
Definition new_URL (env : Env) (s : string) : M string :=
  if url_parses env s then ret s else throw invalid_url.

(** ** The Clerk deployment *)

Module Clerk.

(** The authentication middleware; [next] is the route handler, which
    receives the payload stored under [user].  [await next()] stands
    inside the [try] block; the route handlers of this worker catch what
    they throw and answer in every case, so the block never catches
    anything of theirs. *)
Definition authMiddleware (env : Env) (req : Request)
    (next : list (string * json) -> M Response) : M Response :=
  match authorization req with
  | None => ret missing_token_response
  | Some authHeader =>
      if String.eqb authHeader "" || negb (String.prefix "Bearer " authHeader)
      then ret missing_token_response
      else
        let token := split_on space authHeader !! 1%nat in
        let issuer := CLERK_ISSUER_URL env in
        try_catch
          (do jwksUrl <- new_URL env (issuer ++ "/.well-known/jwks.json");
           do payload <- call_jwtVerify env token jwksUrl issuer;
           next payload)
          reject_token
  end.

Definition tiingo_authorization (env : Env) : string := "Token " ++ TIINGO_API_TOKEN env.

Definition call_fetch (env : Env) (url : string) : M FetchResponse :=
  run emit (EvFetch url (tiingo_authorization env));
  lift (fetch env url (tiingo_authorization env)).

(** [GET /api/holdings] *)
Definition get_api_holdings (env : Env) (user : list (string * json)) : M Response :=
  let userId := get_named (user_value user) "sub" in
  try_catch
    (do holdings <- select_holdings env userId;
     if (length holdings =? 0)%nat then ret (c_json (Json (JArray [])) 200)
     else
       let symbols := String.concat "," (uniq [] (map symbol holdings)) in
       let priceUrl := "https://api.tiingo.com/iex/?tickers=" ++ symbols in
       do priceResponse <- call_fetch env priceUrl;
       if negb (ok priceResponse)
       then ret (c_json (Json (JArray (map holding_json holdings))) 200)
       else
         do priceData <- lift (json_body priceResponse);
         do priceMap <- lift (build_priceMap (number_to_string env) priceData);
         ret (respond (JArray (map enriched_json (enrichedHoldings priceMap holdings))) 200))
    (fun error =>
       ret (c_json (error_details_body "Failed to fetch holdings" (errorMessage error)) 500)).

(** [typeof v === 'number'], with the number. *)
Definition as_number (v : value) : option float :=
  match v with
  | Json (JNumber n) => Some n
  | _ => None
  end.

Definition is_undefined (v : value) : bool :=
  match v with
  | Undefined => true
  | _ => false
  end.

(** [POST /api/holdings] *)
Definition post_api_holdings (env : Env) (req : Request) (user : list (string * json))
  : M Response :=
  let userId := get_named (user_value user) "sub" in
  try_catch
    (do body <- lift (req_json req);
     match body with
     | JNull => throw (null_property_read "symbol")
     | _ =>
         let symbol := get_named (Json body) "symbol" in
         let name := get_named (Json body) "name" in
         let shares := get_named (Json body) "shares" in
         let avg_price := get_named (Json body) "avg_price" in
         if negb (truthy symbol) || negb (truthy name)
            || is_undefined shares || is_undefined avg_price
         then ret (c_json (error_body "Missing required fields: symbol, name, shares, avg_price") 400)
         else
           match as_number shares, as_number avg_price with
           | Some sh, Some ap =>
               if PrimFloat.is_nan sh || negb (PrimFloat.is_finite sh)
                  || PrimFloat.is_nan ap || negb (PrimFloat.is_finite ap)
               then ret (c_json (error_body "shares and avg_price must be valid numbers") 400)
               else if PrimFloat.leb sh PrimFloat.zero
               then ret (c_json (error_body "shares must be greater than 0") 400)
               else if PrimFloat.ltb ap PrimFloat.zero
               then ret (c_json (error_body "avg_price must be non-negative") 400)
               else
                 do last_id <- insert_holding env userId symbol name sh ap;
                 ret (c_json (Json (JObject [ ("success", JBool true);
                                              ("id", JNumber (number_of_Z last_id));
                                              ("message", JString "Holding added successfully") ]))
                             201)
           | _, _ => ret (c_json (error_body "shares and avg_price must be numbers") 400)
           end
     end)
    (fun error =>
       ret (c_json (error_details_body "Failed to create holding" (errorMessage error)) 500)).

Definition not_found_response : Response :=
  c_json (error_body "Holding not found or unauthorized") 404.

(** [DELETE /api/holdings/:id] *)
Definition delete_api_holdings_id (env : Env) (req : Request) (user : list (string * json))
  : M Response :=
  let userId := get_named (user_value user) "sub" in
  let id := param_id req in
  try_catch
    (do changes <- delete_holding env id userId;
     if changes =? 0
     then ret not_found_response
     else ret (c_json (Json (JObject [ ("success", JBool true);
                                       ("message", JString "Holding deleted successfully") ]))
                      200))
    (fun error =>
       ret (c_json (error_details_body "Failed to delete holding" (errorMessage error)) 500)).

Definition news_failed_response : Response :=
  c_json (error_body "Failed to fetch news") 500.

(** [GET /api/news] *)
Definition get_api_news (env : Env) (user : list (string * json)) : M Response :=
  let userId := get_named (user_value user) "sub" in
  try_catch
    (do holdings <- select_distinct_symbols env userId;
     if (length holdings =? 0)%nat then ret (c_json (Json (JArray [])) 200)
     else
       let symbols := String.concat "," holdings in
       let newsUrl := "https://api.tiingo.com/tiingo/news?tickers=" ++ symbols in
       do newsResponse <- call_fetch env newsUrl;
       if negb (ok newsResponse)
       then ret news_failed_response
       else
         do newsData <- lift (json_body newsResponse);
         ret (c_json (Json newsData) 200))
    (fun error =>
       ret (c_json (error_details_body "Failed to fetch news" (errorMessage error)) 500)).

(** The routes, each behind the middleware. *)
Definition GET_api_holdings (env : Env) (req : Request) : M Response :=
  authMiddleware env req (get_api_holdings env).

Definition POST_api_holdings (env : Env) (req : Request) : M Response :=
  authMiddleware env req (post_api_holdings env req).

Definition DELETE_api_holdings_id (env : Env) (req : Request) : M Response :=
  authMiddleware env req (delete_api_holdings_id env req).

Definition GET_api_news (env : Env) (req : Request) : M Response :=
  authMiddleware env req (get_api_news env).

End Clerk.

(** ** The Keycloak deployment *)

Module Keycloak.

(** The same middleware with Keycloak's discovery path; the JWKS URL is
    built before the [try] block. *)
Definition authMiddleware (env : Env) (req : Request)
    (next : list (string * json) -> M Response) : M Response :=
  match authorization req with
  | None => ret missing_token_response
  | Some authHeader =>
      if String.eqb authHeader "" || negb (String.prefix "Bearer " authHeader)
      then ret missing_token_response
      else
        let token := split_on space authHeader !! 1%nat in
        let issuer := KEYCLOAK_ISSUER env in
        do jwksUrl <- new_URL env (issuer ++ "/protocol/openid-connect/certs");
        try_catch
          (do payload <- call_jwtVerify env token jwksUrl issuer;
           next payload)
          reject_token
  end.

End Keycloak.

(** ** Authenticated requests *)

(** The token the middleware extracts, when the header passes its guard. *)
Definition bearer_token (req : Request) : option string :=
  match authorization req with
  | None => None
  | Some authHeader =>
      if String.eqb authHeader "" || negb (String.prefix "Bearer " authHeader)
      then None
      else split_on space authHeader !! 1%nat
  end.

Definition clerk_jwks_url (env : Env) : string :=
  CLERK_ISSUER_URL env ++ "/.well-known/jwks.json".

Definition keycloak_jwks_url (env : Env) : string :=
  KEYCLOAK_ISSUER env ++ "/protocol/openid-connect/certs".

(** The token and payload of a request that the Clerk middleware lets
    through: a bearer header, a well-formed JWKS URL and a token that
    [jwtVerify] accepts. *)
Definition clerk_identity (env : Env) (req : Request)
  : option (string * list (string * json)) :=
  match bearer_token req with
  | None => None
  | Some token =>
      if url_parses env (clerk_jwks_url env)
      then match jwtVerify env token (clerk_jwks_url env) (CLERK_ISSUER_URL env) with
           | Ok payload => Some (token, payload)
           | Throw _ => None
           end
      else None
  end.

(** The subject identifier a handler reads: [user.sub]. *)
Definition subject (payload : list (string * json)) : value :=
  get_named (user_value payload) "sub".

(** The world in which the route handler starts once the Clerk middleware
    has verified [token]. *)
Definition verified (env : Env) (token : string) (w : World) : World :=
  log (EvJwtVerify token (clerk_jwks_url env) (CLERK_ISSUER_URL env)) w.

(** Does an element of a JSON array carry both price fields with the
    absent marker [null]? *)
Definition has_null_price_fields (j : json) : bool :=
  match j with
  | JObject ps =>
      match assoc "currentPrice" ps, assoc "priceData" ps with
      | Some JNull, Some JNull => true
      | _, _ => false
      end
  | _ => false
  end.

(** Does it have neither price field? *)
Definition lacks_price_fields (j : json) : bool :=
  match j with
  | JObject ps =>
      match assoc "currentPrice" ps, assoc "priceData" ps with
      | None, None => true
      | _, _ => false
      end
  | _ => false
  end.

(** [Array.isArray(j)] *)
Definition is_array (j : json) : bool :=
  match j with
  | JArray _ => true
  | _ => false
  end.

(** A symbol that names nothing a plain object inherits. *)
Definition plain_symbol (h : Holding) : bool :=
  negb (is_prototype_method (symbol h)) && negb (String.eqb (symbol h) "__proto__").

(** The URL of the batched quote request for a list of rows. *)
Definition price_url (holdings : list Holding) : string :=
  "https://api.tiingo.com/iex/?tickers=" ++ String.concat "," (uniq [] (map symbol holdings)).

Definition news_url (symbols : list string) : string :=
  "https://api.tiingo.com/tiingo/news?tickers=" ++ String.concat "," symbols.

(** ** A sample deployment

    A concrete environment on which the statements below are exercised. *)

Module Sample.

Definition issuer : string := "https://clerk.uncle.example".

(** Accepts three tokens: two with a [sub] claim and one without. *)
Definition verify (token jwksUrl iss : string) : outcome (list (string * json)) :=
  if String.eqb token "token-u1" then Ok [("sub", JString "u1"); ("iss", JString iss)]
  else if String.eqb token "token-u2" then Ok [("sub", JString "u2"); ("iss", JString iss)]
  else if String.eqb token "token-anonymous" then Ok [("iss", JString iss)]
  else Throw (Error "signature verification failed").

(** A stand-in for Number::toString, exact on zero, NaN and the
    infinities; the examples read no other number as a property key. *)
Definition number_text (n : float) : string :=
  if PrimFloat.is_nan n then "NaN"
  else if PrimFloat.is_zero n then "0"
  else if PrimFloat.eqb n PrimFloat.infinity then "Infinity"
  else if PrimFloat.eqb n PrimFloat.neg_infinity then "-Infinity"
  else "1".

(** The driver takes strings, numbers, booleans and [null]; [undefined],
    arrays and objects are rejected. *)
Definition bind_text (v : value) : bound_text :=
  match v with
  | Json (JString s) => BindText s
  | Json JNull => BindNull
  | Json (JNumber n) => BindText (number_text n)
  | Json (JBool b) => BindText (if b then "1" else "0")
  | _ => BindRejected (Error "D1_TYPE_ERROR: Type not supported for value")
  end.

Definition id_matches (idParam : string) (row_id : Z) : bool :=
  String.eqb idParam (pretty row_id).

Definition env (issuer_url : string) (provider : string -> string -> outcome FetchResponse) : Env :=
  mkEnv issuer_url "https://keycloak.uncle.example/realms/uncle" "tiingo-secret"
        (String.prefix "https://") verify provider None bind_text id_matches number_text.

Definition request (token : string) : Request :=
  mkRequest (Some ("Bearer " ++ token)) (Throw (Error "Unexpected end of JSON input")) "".

Definition post (token : string) (body : json) : Request :=
  mkRequest (Some ("Bearer " ++ token)) (Ok body) "".

Definition delete (token : string) (idParam : string) : Request :=
  mkRequest (Some ("Bearer " ++ token)) (Throw (Error "Unexpected end of JSON input")) idParam.

Definition aapl : Holding := mkHolding 1 "u1" "AAPL" "Apple Inc." 10%float 150%float.
Definition msft : Holding := mkHolding 2 "u1" "MSFT" "Microsoft" 5%float 300%float.
Definition tsla : Holding := mkHolding 3 "u2" "TSLA" "Tesla" 2%float 200%float.

Definition world : World := mkWorld [aapl; msft; tsla] 3 [].

(** Provider behaviours. *)
Definition provider_down (url auth : string) : outcome FetchResponse :=
  Ok (mkFetchResponse false (Ok (JObject [("detail", JString "Service unavailable")]))).

Definition provider_error_object (url auth : string) : outcome FetchResponse :=
  Ok (mkFetchResponse true (Ok (JObject [("detail", JString "Not found")]))).

Definition provider_quotes (quotes : list json) (url auth : string) : outcome FetchResponse :=
  Ok (mkFetchResponse true (Ok (JArray quotes))).

Definition quote (ticker : string) (last : float) : json :=
  JObject [("ticker", JString ticker); ("last", JNumber last)].

Definition env_down : Env := env issuer provider_down.
Definition env_error_object : Env := env issuer provider_error_object.
Definition env_bad_issuer : Env := env "clerk.uncle.example" provider_down.

(** An identity-echo route: answers with the payload it was handed. *)
Definition echo (user : list (string * json)) : M Response :=
  ret (c_json (user_value user) 200).

End Sample.

(** ** The remaining routes *)

(** An object literal under construction: own properties in creation
    order, each holding any value. *)
Fixpoint put (k : string) (v : value) (o : list (string * value)) : list (string * value) :=
  match o with
  | [] => [(k, v)]
  | (k', v') :: rest =>
      if String.eqb k k' then (k, v) :: rest else (k', v') :: put k v rest
  end.

(** [{ ...o, ...src }]: every own property of [src] is copied over, a key
    already present keeping its place and taking the new value. *)
Definition spread (src : list (string * json)) (o : list (string * value))
  : list (string * value) :=
  fold_left (fun acc kv =>
               match assoc (fst kv) src with
               | Some j => put (fst kv) (Json j) acc
               | None => acc
               end) src o.

(** The properties [JSON.stringify] writes for an object literal. *)
Definition stringify_props (o : list (string * value)) : list (string * json) :=
  flat_map (fun kv => property (fst kv) (snd kv)) o.

Definition hex_digit (n : N) : ascii :=
  if (n <? 10)%N then ascii_of_N (48 + n) else ascii_of_N (55 + n).

(** The characters [encodeURIComponent] leaves as they are: letters,
    digits and [- _ . ! ~ * ' ( )]. *)
Definition uri_unreserved (c : ascii) : bool :=
  let n := N_of_ascii c in
  ((65 <=? n) && (n <=? 90) || (97 <=? n) && (n <=? 122) || (48 <=? n) && (n <=? 57)
   || (n =? 45) || (n =? 95) || (n =? 46) || (n =? 33) || (n =? 126)
   || (n =? 42) || (n =? 39) || (n =? 40) || (n =? 41))%N.

(** [encodeURIComponent(s)] on the UTF-8 bytes of a well-formed string:
    every byte that is not unreserved becomes [%XX], in upper-case
    hexadecimal. *)
Fixpoint encodeURIComponent (s : string) : string :=
  match s with
  | EmptyString => EmptyString
  | String c rest =>
      if uri_unreserved c then String c (encodeURIComponent rest)
      else String "%" (String (hex_digit (N_of_ascii c / 16))
                         (String (hex_digit (N_of_ascii c mod 16))
                            (encodeURIComponent rest)))
  end.

Definition search_url (query : string) : string :=
  "https://api.tiingo.com/tiingo/utilities/search?query=" ++ encodeURIComponent query.

Module Worker.

(** [GET /api/private] of the Clerk deployment:
    [{ message, user: { id: user.sub, ...user } }]. *)
Definition get_api_private (user : list (string * json)) : M Response :=
  ret (respond
         (JObject [ ("message", JString "Secure data accessed successfully!");
                    ("user", JObject (stringify_props (spread user [("id", subject user)]))) ])
         200).

(** [GET /api/search]; [query] is [c.req.query('query')]. *)
Definition get_api_search (env : Env) (query : option string) : M Response :=
  match query with
  | None => ret (c_json (error_body "Query parameter is required") 400)
  | Some q =>
      if String.eqb q "" then ret (c_json (error_body "Query parameter is required") 400)
      else
        try_catch
          (do response <- Clerk.call_fetch env (search_url q);
           if negb (ok response)
           then ret (c_json (error_body "Failed to fetch search results") 500)
           else
             do data <- lift (json_body response);
             ret (c_json (Json data) 200))
          (fun error =>
             ret (c_json (error_details_body "Search request failed" (errorMessage error)) 500))
  end.

Definition GET_api_private (env : Env) (req : Request) : M Response :=
  Clerk.authMiddleware env req get_api_private.

Definition GET_api_search (env : Env) (req : Request) (query : option string) : M Response :=
  Clerk.authMiddleware env req (fun _ => get_api_search env query).

End Worker.

Module KeycloakWorker.

(** [GET /api/private] of the Keycloak deployment: [sub], [name], [email]
    and [realm_access?.roles || []], read on the payload object; none of
    these names is inherited from a built-in prototype. *)
Definition get_api_private (user : list (string * json)) : M Response :=
  let u := user_value user in
  ret (respond
         (JObject
            [ ("message", JString "Secure data accessed successfully!");
              ("user",
               JObject (stringify_props
                          [ ("sub", get_named u "sub");
                            ("name", get_named u "name");
                            ("email", get_named u "email");
                            ("roles", js_or (get_named_opt (get_named u "realm_access") "roles")
                                            (Json (JArray []))) ])) ])
         200).

Definition GET_api_private (env : Env) (req : Request) : M Response :=
  Keycloak.authMiddleware env req get_api_private.

End KeycloakWorker.

(** ** Vocabulary for the statements *)

Definition is_fetch (ev : event) : bool :=
  match ev with
  | EvFetch _ _ => true
  | _ => false
  end.

(** The event the Clerk middleware leaves when it verifies [token]. *)
Definition verification_event (env : Env) (token : string) : event :=
  EvJwtVerify token (clerk_jwks_url env) (CLERK_ISSUER_URL env).

(** The requests a trace sends to the market-data provider. *)
Definition fetch_events (evs : list event) : list event := List.filter is_fetch evs.

(** The checks [POST /api/holdings] makes on the two numbers of a row. *)
Definition row_valid (h : Holding) : bool :=
  PrimFloat.is_finite (shares h) && PrimFloat.is_finite (avg_price h)
  && negb (PrimFloat.leb (shares h) PrimFloat.zero)
  && negb (PrimFloat.ltb (avg_price h) PrimFloat.zero).

(** A table whose ids are pairwise distinct and not above the row counter,
    and whose rows pass the checks of the create route. *)
Definition World_ok (w : World) : Prop :=
  NoDup (map id (holdings_table w))
  /\ Forall (fun h => id h <= last_row_id w) (holdings_table w)
  /\ Forall (fun h => row_valid h = true) (holdings_table w).

(** The ticker of a provider item that is an object whose [ticker] is a
    string other than [__proto__]. *)
Definition quote_ticker (item : json) : option string :=
  match item with
  | JObject ps =>
      match assoc "ticker" ps with
      | Some (JString k) => if String.eqb k "__proto__" then None else Some k
      | _ => None
      end
  | _ => None
  end.

Definition has_ticker (k : string) (item : json) : bool :=
  match quote_ticker item with
  | Some k' => String.eqb k k'
  | None => false
  end.

Definition is_quote (item : json) : bool :=
  match quote_ticker item with
  | Some _ => true
  | None => false
  end.

(** The last item of the provider's array that quotes [k]. *)
Definition last_quote (k : string) (items : list json) : option json :=
  List.find (has_ticker k) (rev items).

(** A holding with the last quote the provider's array has for its symbol:
    the quote as [priceData] and its [last], when truthy, as
    [currentPrice]; [null] in both fields when no item quotes the symbol. *)
Definition quoted (items : list json) (h : Holding) : EnrichedHolding :=
  match last_quote (symbol h) items with
  | Some q => mkEnriched h (js_or (get_named (Json q) "last") js_null) (Json q)
  | None => mkEnriched h js_null js_null
  end.

(** The text of a bearer header after the scheme, up to the next space. *)
Fixpoint up_to_space (s : string) : string :=
  match s with
  | EmptyString => EmptyString
  | String c rest => if Ascii.eqb c space then EmptyString else String c (up_to_space rest)
  end.


(** Do all characters of a string pass a test? *)
Fixpoint string_forallb (p : ascii -> bool) (s : string) : bool :=
  match s with
  | EmptyString => true
  | String c rest => p c && string_forallb p rest
  end.

Definition percent : ascii := Ascii.ascii_of_nat 37.

(** The characters a URI component may consist of after encoding. *)
Definition uri_component_char (c : ascii) : bool := uri_unreserved c || Ascii.eqb c percent.

Definition hex_value (c : ascii) : N :=
  let n := N_of_ascii c in
  if (n <? 58)%N then (n - 48)%N else (n - 55)%N.

(** The first byte a component encodes, with the rest of the component. *)
Definition uri_head (s : string) : option (ascii * string) :=
  match s with
  | EmptyString => None
  | String c rest =>
      if Ascii.eqb c percent
      then match rest with
           | String hi (String lo rest') =>
               Some (ascii_of_N (16 * hex_value hi + hex_value lo), rest')
           | _ => None
           end
      else Some (c, rest)
  end.

(** ** Further sample data *)

Module Scenario.

Definition u1_payload : list (string * json) :=
  [("sub", JString "u1"); ("iss", JString Sample.issuer)].

Definition u2_payload : list (string * json) :=
  [("sub", JString "u2"); ("iss", JString Sample.issuer)].

Definition aapl_fields : list (string * json) :=
  [ ("symbol", JString "AAPL"); ("name", JString "Apple Inc.");
    ("shares", JNumber 10%float); ("avg_price", JNumber 150%float) ].

(** [u2] creates an AAPL holding. *)
Definition create_aapl : Request := Sample.post "token-u2" (JObject aapl_fields).

End Scenario.

(** * Properties *)

(** ** The monad *)

Lemma bind_ok {A B : Type} (m : M A) (k : A -> M B) (w w' : World) (a : A) :
  m w = (Ok a, w') -> bind m k w = k a w'.
Proof. intros H. unfold bind. rewrite H. reflexivity. Qed.

Lemma bind_throw {A B : Type} (m : M A) (k : A -> M B) (w w' : World) (e : exn) :
  m w = (Throw e, w') -> bind m k w = (Throw e, w').
Proof. intros H. unfold bind. rewrite H. reflexivity. Qed.

Lemma try_catch_ok {A : Type} (m : M A) (h : exn -> M A) (w w' : World) (a : A) :
  m w = (Ok a, w') -> try_catch m h w = (Ok a, w').
Proof. intros H. unfold try_catch. rewrite H. reflexivity. Qed.

Lemma try_catch_throw {A : Type} (m : M A) (h : exn -> M A) (w w' : World) (e : exn) :
  m w = (Throw e, w') -> try_catch m h w = h e w'.
Proof. intros H. unfold try_catch. rewrite H. reflexivity. Qed.

(** A [try] whose [catch] block answers never throws. *)
Lemma try_catch_answers {A : Type} (m : M A) (f : exn -> A) (w : World) :
  exists a w', try_catch m (fun e => ret (f e)) w = (Ok a, w').
Proof.
  unfold try_catch. destruct (m w) as [[a|e] w'].
  - exists a, w'. reflexivity.
  - exists (f e), w'. reflexivity.
Qed.

(** ** Property keys *)

(** Only an object has a [ticker]: every other item that is not [null] is
    stored under the key [undefined]. *)
Lemma ticker_key_of_non_object (nts : float -> string) (item : json) :
  (forall ps, item <> JObject ps) ->
  to_property_key nts (get_named (Json item) "ticker") = Ok "undefined".
Proof.
  intros H. destruct item; try reflexivity. exfalso. apply (H props). reflexivity.
Qed.

Example ticker_key_of_array :
  to_property_key Sample.number_text
    (get_named (Json (JObject [("ticker", JArray [JString "__proto__"])])) "ticker")
  = Ok "__proto__".
Proof. reflexivity. Qed.

(** ** The middleware *)

Example split_bearer : split_on space "Bearer abc def" = ["Bearer"; "abc"; "def"].
Proof. reflexivity. Qed.

Example split_bearer_empty : split_on space "Bearer " = ["Bearer"; ""].
Proof. reflexivity. Qed.

Lemma bearer_token_guard (req : Request) (token : string) :
  bearer_token req = Some token ->
  exists authHeader,
    authorization req = Some authHeader
    /\ (String.eqb authHeader "" || negb (String.prefix "Bearer " authHeader)) = false
    /\ split_on space authHeader !! 1%nat = Some token.
Proof.
  unfold bearer_token. destruct (authorization req) as [h|]; [|discriminate].
  destruct (String.eqb h "" || negb (String.prefix "Bearer " h)) eqn:G; [discriminate|].
  intros H. exists h. auto.
Qed.

Lemma clerk_identity_inv (env : Env) (req : Request) (token : string)
    (payload : list (string * json)) :
  clerk_identity env req = Some (token, payload) ->
  bearer_token req = Some token
  /\ url_parses env (clerk_jwks_url env) = true
  /\ jwtVerify env token (clerk_jwks_url env) (CLERK_ISSUER_URL env) = Ok payload.
Proof.
  unfold clerk_identity. destruct (bearer_token req) as [t|]; [|discriminate].
  destruct (url_parses env (clerk_jwks_url env)); [|discriminate].
  destruct (jwtVerify env t _ _) eqn:V; [|discriminate].
  intros H. inversion H; subst. auto.
Qed.

(** Once the token is verified the middleware runs the route handler on
    the payload, inside its own [try] block. *)
Lemma clerk_middleware_accepts (env : Env) (req : Request)
    (next : list (string * json) -> M Response) (w : World)
    (token : string) (payload : list (string * json)) :
  clerk_identity env req = Some (token, payload) ->
  Clerk.authMiddleware env req next w
  = try_catch (next payload) reject_token (verified env token w).
Proof.
  intros H. apply clerk_identity_inv in H as (Hb & Hu & Hv).
  apply bearer_token_guard in Hb as (h & Hh & Hg & Ht).
  unfold Clerk.authMiddleware. rewrite Hh, Hg, Ht.
  unfold try_catch, bind, new_URL, call_jwtVerify, clerk_jwks_url in *.
  rewrite Hu. cbn. unfold bind, emit, lift, verified, log, clerk_jwks_url. cbn.
  rewrite Hv. reflexivity.
Qed.

(** A route handler that answers in every case is not affected by the
    middleware's [try] block. *)
Lemma clerk_route_runs_handler (env : Env) (req : Request)
    (next : list (string * json) -> M Response) (w : World)
    (token : string) (payload : list (string * json)) :
  clerk_identity env req = Some (token, payload) ->
  (exists r w', next payload (verified env token w) = (Ok r, w')) ->
  Clerk.authMiddleware env req next w = next payload (verified env token w).
Proof.
  intros H (r & w' & Hn).
  rewrite (clerk_middleware_accepts _ _ _ _ _ _ H).
  rewrite (try_catch_ok _ _ _ _ _ Hn). symmetry. exact Hn.
Qed.

(** Enter a route of the Clerk deployment with a verified identity [Hid]:
    the goal is restated about the route handler, started in the world the
    middleware leaves. *)
Ltac through_middleware Hid :=
  unfold Clerk.GET_api_holdings, Clerk.POST_api_holdings,
    Clerk.DELETE_api_holdings_id, Clerk.GET_api_news;
  rewrite (clerk_route_runs_handler _ _ _ _ _ _ Hid) by apply try_catch_answers.

(** ** Handlers answer in every case *)

Lemma get_api_holdings_answers (env : Env) (user : list (string * json)) (w : World) :
  exists r w', Clerk.get_api_holdings env user w = (Ok r, w').
Proof. apply try_catch_answers. Qed.

Lemma post_api_holdings_answers (env : Env) (req : Request) (user : list (string * json))
    (w : World) :
  exists r w', Clerk.post_api_holdings env req user w = (Ok r, w').
Proof. apply try_catch_answers. Qed.

Lemma delete_api_holdings_id_answers (env : Env) (req : Request)
    (user : list (string * json)) (w : World) :
  exists r w', Clerk.delete_api_holdings_id env req user w = (Ok r, w').
Proof. apply try_catch_answers. Qed.

Lemma get_api_news_answers (env : Env) (user : list (string * json)) (w : World) :
  exists r w', Clerk.get_api_news env user w = (Ok r, w').
Proof. apply try_catch_answers. Qed.

(** ** Rows as JSON *)

Lemma holding_json_lacks_price_fields (h : Holding) :
  lacks_price_fields (json_normal (holding_json h)) = true.
Proof. reflexivity. Qed.

Lemma rows_lack_price_fields (holdings : list Holding) :
  forallb lacks_price_fields (map json_normal (map holding_json holdings)) = true.
Proof.
  induction holdings as [|h rest IH]; [reflexivity|].
  cbn [map forallb]. rewrite holding_json_lacks_price_fields. exact IH.
Qed.

Lemma lacks_excludes_null_fields (j : json) :
  lacks_price_fields j = true -> has_null_price_fields j = false.
Proof.
  destruct j as [| | | | |ps]; cbn; try reflexivity.
  destruct (assoc "currentPrice" ps); [discriminate|].
  destruct (assoc "priceData" ps); [discriminate|]. reflexivity.
Qed.

Lemma length_zero_iff_nil {A : Type} (l : list A) :
  (length l =? 0)%nat = false <-> l <> [].
Proof. destruct l; cbn; split; intros; congruence. Qed.

(** ** GET /api/holdings when the provider answers with a failure *)

Lemma get_api_holdings_provider_failure (env : Env) (user : list (string * json))
    (w : World) (holdings : list Holding) (resp : FetchResponse) :
  d1_select env (subject user) (holdings_table w) = Ok holdings ->
  holdings <> [] ->
  fetch env (price_url holdings) (Clerk.tiingo_authorization env) = Ok resp ->
  ok resp = false ->
  Clerk.get_api_holdings env user w
  = (Ok (c_json (Json (JArray (map holding_json holdings))) 200),
     log (EvFetch (price_url holdings) (Clerk.tiingo_authorization env)) w).
Proof.
  intros Hsel Hne Hfetch Hok.
  apply length_zero_iff_nil in Hne.
  unfold Clerk.get_api_holdings, try_catch, bind, select_holdings, subject in *.
  rewrite Hsel, Hne.
  unfold Clerk.call_fetch, bind, emit, lift, price_url in *.
  rewrite Hfetch, Hok. reflexivity.
Qed.

(** C1, as the code has it: when the quote request comes back with a
    non-success status, an authenticated [GET /api/holdings] still answers
    200, and the body is the list of stored rows as they are, in order,
    with no [currentPrice] and no [priceData] property on any of them; the
    table is left as it was. *)
Theorem holdings_provider_failure_returns_bare_rows (env : Env) (req : Request) (w : World)
    (token : string) (payload : list (string * json))
    (holdings : list Holding) (resp : FetchResponse) :
  clerk_identity env req = Some (token, payload) ->
  d1_select env (subject payload) (holdings_table w) = Ok holdings ->
  holdings <> [] ->
  fetch env (price_url holdings) (Clerk.tiingo_authorization env) = Ok resp ->
  ok resp = false ->
  exists w',
    Clerk.GET_api_holdings env req w
    = (Ok (mkResponse 200 (Some (JArray (map json_normal (map holding_json holdings))))), w')
    /\ holdings_table w' = holdings_table w
    /\ forallb lacks_price_fields (map json_normal (map holding_json holdings)) = true.
Proof.
  intros Hid Hsel Hne Hfetch Hok.
  exists (log (EvFetch (price_url holdings) (Clerk.tiingo_authorization env))
              (verified env token w)).
  split; [|split].
  - through_middleware Hid.
    rewrite (get_api_holdings_provider_failure env payload _ holdings resp); auto.
  - reflexivity.
  - apply rows_lack_price_fields.
Qed.

(** On the sample deployment with the provider answering 503, the caller
    [u1] gets 200 with two rows, neither carrying a price field. *)
Lemma holdings_provider_failure_returns_bare_rows_witness :
  exists w',
    Clerk.GET_api_holdings Sample.env_down (Sample.request "token-u1") Sample.world
    = (Ok (mkResponse 200
             (Some (JArray (map json_normal
                              (map holding_json [Sample.aapl; Sample.msft]))))), w')
    /\ holdings_table w' = holdings_table Sample.world
    /\ forallb lacks_price_fields
         (map json_normal (map holding_json [Sample.aapl; Sample.msft])) = true.
Proof.
  apply (holdings_provider_failure_returns_bare_rows
           Sample.env_down (Sample.request "token-u1") Sample.world
           "token-u1" [("sub", JString "u1"); ("iss", JString Sample.issuer)]
           [Sample.aapl; Sample.msft]
           (mkFetchResponse false (Ok (JObject [("detail", JString "Service unavailable")])))).
  - reflexivity.
  - reflexivity.
  - discriminate.
  - reflexivity.
  - reflexivity.
Defined.

(** C1 as the specification words it fails: on the same request the
    provider's failure is answered with 200, but the rows of the body do
    not carry the absent marker in [currentPrice] and [priceData]; they
    have neither property. *)
Lemma provider_failure_omits_price_fields :
  exists resp items w',
    fetch Sample.env_down (price_url [Sample.aapl; Sample.msft])
          (Clerk.tiingo_authorization Sample.env_down) = Ok resp
    /\ ok resp = false
    /\ Clerk.GET_api_holdings Sample.env_down (Sample.request "token-u1") Sample.world
       = (Ok (mkResponse 200 (Some (JArray items))), w')
    /\ items <> []
    /\ forallb has_null_price_fields items = false
    /\ forallb lacks_price_fields items = true.
Proof.
  eexists _, _, _.
  split; [reflexivity|]. split; [reflexivity|].
  split; [vm_compute; reflexivity|].
  split; [discriminate|]. split; reflexivity.
Qed.

(** ** What the middleware accepts *)

Lemma clerk_middleware_rejects (env : Env) (req : Request)
    (next : list (string * json) -> M Response) (w : World) :
  clerk_identity env req = None ->
  exists r w',
    Clerk.authMiddleware env req next w = (Ok r, w')
    /\ (r = missing_token_response \/ r = invalid_token_response)
    /\ holdings_table w' = holdings_table w
    /\ last_row_id w' = last_row_id w.
Proof.
  unfold clerk_identity, bearer_token, Clerk.authMiddleware.
  destruct (authorization req) as [h|].
  2:{ intros _. exists missing_token_response, w. auto. }
  destruct (String.eqb h "" || negb (String.prefix "Bearer " h)).
  { intros _. exists missing_token_response, w. auto. }
  unfold try_catch, bind, new_URL, call_jwtVerify, clerk_jwks_url.
  destruct (split_on space h !! 1%nat) as [t|].
  - destruct (url_parses env (CLERK_ISSUER_URL env ++ "/.well-known/jwks.json")); cbn.
    + unfold bind, emit, lift. cbn.
      destruct (jwtVerify env t _ _) as [p|e]; [discriminate|].
      intros _. eexists _, _. split; [reflexivity|]. auto.
    + intros _. eexists _, _. split; [reflexivity|]. auto.
  - intros _.
    destruct (url_parses env (CLERK_ISSUER_URL env ++ "/.well-known/jwks.json")); cbn;
      eexists _, _; (split; [reflexivity|]); auto.
Qed.

(** C2, as the code has it: the middleware lets through exactly the
    requests whose bearer token [jwtVerify] accepts under the issuer
    option; the identity it hands to the route handler is the payload as
    returned, and the subject the handlers read is that payload's own [sub]
    property, [undefined] when there is none.  Every other request is
    answered 401 and leaves the table alone. *)
Theorem middleware_hands_payload_unchecked (env : Env) (req : Request)
    (next : list (string * json) -> M Response) (w : World) :
  match clerk_identity env req with
  | Some (token, payload) =>
      Clerk.authMiddleware env req next w
      = try_catch (next payload) reject_token (verified env token w)
      /\ subject payload = match assoc "sub" payload with
                           | Some claim => Json claim
                           | None => Undefined
                           end
  | None =>
      exists r w',
        Clerk.authMiddleware env req next w = (Ok r, w')
        /\ (r = missing_token_response \/ r = invalid_token_response)
        /\ holdings_table w' = holdings_table w
        /\ last_row_id w' = last_row_id w
  end.
Proof.
  destruct (clerk_identity env req) as [[token payload]|] eqn:Hid.
  - split.
    + apply clerk_middleware_accepts. exact Hid.
    + reflexivity.
  - apply clerk_middleware_rejects. exact Hid.
Qed.

(** C2 as the specification words it fails: a token that [jwtVerify]
    accepts and whose payload has no [sub] claim passes the middleware; the
    handler runs with a payload whose subject is [undefined]. *)
Lemma token_without_sub_is_accepted :
  clerk_identity Sample.env_down (Sample.request "token-anonymous")
  = Some ("token-anonymous", [("iss", JString Sample.issuer)])
  /\ assoc "sub" [("iss", JString Sample.issuer)] = None
  /\ fst (Clerk.authMiddleware Sample.env_down (Sample.request "token-anonymous")
            Sample.echo Sample.world)
     = Ok (mkResponse 200 (Some (JObject [("iss", JString Sample.issuer)])))
  /\ subject [("iss", JString Sample.issuer)] = Undefined.
Proof. repeat split. Qed.

(** ** Failures of the key resolver *)

(** C3, as the code has it.  In the Clerk deployment a malformed issuer
    URL is caught before [jwtVerify] is called (so before any network
    access) and a failure inside [jwtVerify], key discovery included, is
    caught after it; both are logged and both are answered with the same
    401 "Unauthorized: Invalid token" that a bad token gets, and the route
    handler is not run.  In the Keycloak deployment a failure inside
    [jwtVerify] is answered the same way, while a malformed issuer URL is
    thrown before the [try] block and leaves the middleware uncaught. *)
Theorem resolver_failure_answered_as_invalid_token (env : Env) (req : Request)
    (next : list (string * json) -> M Response) (w : World) (token : string) :
  bearer_token req = Some token ->
  (url_parses env (clerk_jwks_url env) = false ->
   Clerk.authMiddleware env req next w
   = (Ok invalid_token_response, log (EvConsoleError jwt_failed_label invalid_url) w))
  /\ (forall e,
        url_parses env (clerk_jwks_url env) = true ->
        jwtVerify env token (clerk_jwks_url env) (CLERK_ISSUER_URL env) = Throw e ->
        Clerk.authMiddleware env req next w
        = (Ok invalid_token_response,
           log (EvConsoleError jwt_failed_label e) (verified env token w)))
  /\ (url_parses env (keycloak_jwks_url env) = false ->
      Keycloak.authMiddleware env req next w = (Throw invalid_url, w))
  /\ (forall e,
        url_parses env (keycloak_jwks_url env) = true ->
        jwtVerify env token (keycloak_jwks_url env) (KEYCLOAK_ISSUER env) = Throw e ->
        Keycloak.authMiddleware env req next w
        = (Ok invalid_token_response,
           log (EvConsoleError jwt_failed_label e)
               (log (EvJwtVerify token (keycloak_jwks_url env) (KEYCLOAK_ISSUER env)) w))).
Proof.
  intros Hb. apply bearer_token_guard in Hb as (h & Hh & Hg & Ht).
  unfold Clerk.authMiddleware, Keycloak.authMiddleware.
  rewrite Hh, Hg, Ht.
  unfold try_catch, bind, new_URL, call_jwtVerify, clerk_jwks_url, keycloak_jwks_url.
  repeat split.
  - intros Hu. rewrite Hu. reflexivity.
  - intros e Hu Hv. rewrite Hu. cbn. unfold bind, emit, lift. cbn.
    unfold clerk_jwks_url in Hv. rewrite Hv. reflexivity.
  - intros Hu. rewrite Hu. reflexivity.
  - intros e Hu Hv. rewrite Hu. cbn. unfold bind, emit, lift. cbn.
    unfold keycloak_jwks_url in Hv. rewrite Hv. reflexivity.
Qed.

(** On the sample deployment configured with an issuer that is not an
    absolute URL, a request with a good token is answered 401 "Invalid
    token", and the only event is the console log. *)
Lemma resolver_failure_answered_as_invalid_token_witness :
  Clerk.authMiddleware Sample.env_bad_issuer (Sample.request "token-u1")
    Sample.echo Sample.world
  = (Ok invalid_token_response,
     log (EvConsoleError jwt_failed_label invalid_url) Sample.world).
Proof.
  apply (resolver_failure_answered_as_invalid_token
           Sample.env_bad_issuer (Sample.request "token-u1") Sample.echo Sample.world
           "token-u1").
  - reflexivity.
  - reflexivity.
Defined.

(** C3 as the specification words it fails: with a malformed issuer the
    Clerk middleware answers a well-formed request with a good token by
    the generic authentication failure, the very response a forged token
    gets from a well-configured deployment. *)
Lemma malformed_issuer_reported_as_invalid_token :
  url_parses Sample.env_bad_issuer (clerk_jwks_url Sample.env_bad_issuer) = false
  /\ fst (Clerk.authMiddleware Sample.env_bad_issuer (Sample.request "token-u1")
            Sample.echo Sample.world)
     = Ok (mkResponse 401 (Some (JObject [("error", JString "Unauthorized: Invalid token")])))
  /\ fst (Clerk.authMiddleware Sample.env_down (Sample.request "forged")
            Sample.echo Sample.world)
     = Ok (mkResponse 401 (Some (JObject [("error", JString "Unauthorized: Invalid token")]))).
Proof. repeat split. Qed.

(** ** DELETE /api/holdings/:id *)

Lemma filter_none {A : Type} (p : A -> bool) (l : list A) :
  (forall x, In x l -> p x = false) -> List.filter p l = [].
Proof.
  induction l as [|x rest IH]; intros H; [reflexivity|].
  cbn. rewrite (H x (or_introl eq_refl)). apply IH.
  intros y Hy. apply H. right. exact Hy.
Qed.

Lemma filter_all {A : Type} (p : A -> bool) (l : list A) :
  (forall x, In x l -> p x = true) -> List.filter p l = l.
Proof.
  induction l as [|x rest IH]; intros H; [reflexivity|].
  cbn. rewrite (H x (or_introl eq_refl)). f_equal. apply IH.
  intros y Hy. apply H. right. exact Hy.
Qed.

(** When no row has both the id and the owner, the statement changes
    nothing and the handler answers 404. *)
Lemma delete_api_holdings_id_no_match (env : Env) (req : Request)
    (user : list (string * json)) (w : World) (u : string) :
  d1_unavailable env = None ->
  d1_bind_text env (subject user) = BindText u ->
  (forall h, In h (holdings_table w) -> delete_matches env (param_id req) u h = false) ->
  Clerk.delete_api_holdings_id env req user w = (Ok Clerk.not_found_response, w).
Proof.
  intros Hup Hbind Hnone.
  unfold Clerk.delete_api_holdings_id, try_catch, bind, delete_holding, d1_ready, subject in *.
  rewrite Hup, Hbind. unfold bind, ret. cbn.
  rewrite (filter_none _ _ Hnone).
  rewrite filter_all.
  - destruct w; reflexivity.
  - intros h Hh. rewrite (Hnone h Hh). reflexivity.
Qed.

(** C4: for one caller, deleting an id that exists under another owner
    and deleting an id that does not exist get the same answer, 404 with
    the same body, and neither changes the table. *)
Theorem delete_foreign_id_indistinguishable_from_missing (env : Env)
    (req1 req2 : Request) (w1 w2 : World)
    (token : string) (payload : list (string * json)) (u : string) :
  clerk_identity env req1 = Some (token, payload) ->
  clerk_identity env req2 = Some (token, payload) ->
  d1_unavailable env = None ->
  d1_bind_text env (subject payload) = BindText u ->
  (exists h, In h (holdings_table w1)
             /\ d1_id_matches env (param_id req1) (id h) = true) ->
  (forall h, In h (holdings_table w1) ->
             d1_id_matches env (param_id req1) (id h) = true -> user_id h <> u) ->
  (forall h, In h (holdings_table w2) ->
             d1_id_matches env (param_id req2) (id h) = false) ->
  fst (Clerk.DELETE_api_holdings_id env req1 w1)
  = Ok (mkResponse 404 (Some (JObject [("error", JString "Holding not found or unauthorized")])))
  /\ fst (Clerk.DELETE_api_holdings_id env req2 w2)
     = fst (Clerk.DELETE_api_holdings_id env req1 w1)
  /\ holdings_table (snd (Clerk.DELETE_api_holdings_id env req1 w1)) = holdings_table w1
  /\ holdings_table (snd (Clerk.DELETE_api_holdings_id env req2 w2)) = holdings_table w2.
Proof.
  intros Hid1 Hid2 Hup Hbind _ Hforeign Hmissing.
  through_middleware Hid1.
  rewrite (clerk_route_runs_handler _ _ _ _ _ _ Hid2) by apply try_catch_answers.
  rewrite (delete_api_holdings_id_no_match env req1 payload _ u Hup Hbind).
  2:{ intros h Hh. unfold delete_matches, owned_by.
      destruct (d1_id_matches env (param_id req1) (id h)) eqn:Hm; [|reflexivity].
      cbn. apply String.eqb_neq. apply (Hforeign h Hh Hm). }
  rewrite (delete_api_holdings_id_no_match env req2 payload _ u Hup Hbind).
  2:{ intros h Hh. unfold delete_matches. cbn in Hh. rewrite (Hmissing h Hh). reflexivity. }
  repeat split.
Qed.

(** On the sample table, [u1] deleting row 3 (owned by [u2]) and [u1]
    deleting row 99 (no such row) are answered alike. *)
Lemma delete_foreign_id_indistinguishable_from_missing_witness :
  fst (Clerk.DELETE_api_holdings_id Sample.env_down (Sample.delete "token-u1" "3") Sample.world)
  = Ok (mkResponse 404 (Some (JObject [("error", JString "Holding not found or unauthorized")])))
  /\ fst (Clerk.DELETE_api_holdings_id Sample.env_down (Sample.delete "token-u1" "99") Sample.world)
     = fst (Clerk.DELETE_api_holdings_id Sample.env_down (Sample.delete "token-u1" "3") Sample.world)
  /\ holdings_table
       (snd (Clerk.DELETE_api_holdings_id Sample.env_down (Sample.delete "token-u1" "3") Sample.world))
     = holdings_table Sample.world
  /\ holdings_table
       (snd (Clerk.DELETE_api_holdings_id Sample.env_down (Sample.delete "token-u1" "99") Sample.world))
     = holdings_table Sample.world.
Proof.
  apply (delete_foreign_id_indistinguishable_from_missing
           Sample.env_down (Sample.delete "token-u1" "3") (Sample.delete "token-u1" "99")
           Sample.world Sample.world
           "token-u1" [("sub", JString "u1"); ("iss", JString Sample.issuer)] "u1").
  - reflexivity.
  - reflexivity.
  - reflexivity.
  - reflexivity.
  - exists Sample.tsla. split; [cbn; auto|reflexivity].
  - intros h [<-|[<-|[<-|[]]]]; cbn; intros E; try discriminate E.
    discriminate.
  - intros h [<-|[<-|[<-|[]]]]; reflexivity.
Defined.

(** ** The enrichment merger *)

(** C6: the merger returns one enriched holding per input holding, in the
    input's order: the output has the input's length, dropping the price
    fields gives back the input, and position [i] of the output is the
    enrichment of position [i] of the input. *)
Theorem enrichedHoldings_preserves_order (pm : PriceMap) (holdings : list Holding) :
  length (enrichedHoldings pm holdings) = length holdings
  /\ map holding (enrichedHoldings pm holdings) = holdings
  /\ forall i : nat, enrichedHoldings pm holdings !! i = enrich pm <$> (holdings !! i).
Proof.
  unfold enrichedHoldings. split; [|split].
  - apply length_map.
  - induction holdings as [|h rest IH]; [reflexivity|].
    cbn [map]. rewrite IH. reflexivity.
  - intros i. apply list_lookup_fmap.
Qed.

(** The specification's example: of three holdings only the second has a
    quote; the output keeps the three in place. *)
Example enrichedHoldings_A_B_C :
  build_priceMap Sample.number_text (JArray [Sample.quote "MSFT" 410.5%float])
  = Ok (mkPriceMap {[ "MSFT" := Sample.quote "MSFT" 410.5%float ]} None)
  /\ enrichedHoldings (mkPriceMap {[ "MSFT" := Sample.quote "MSFT" 410.5%float ]} None)
       [Sample.aapl; Sample.msft; Sample.tsla]
     = [ mkEnriched Sample.aapl js_null js_null;
         mkEnriched Sample.msft (Json (JNumber 410.5%float))
                    (Json (Sample.quote "MSFT" 410.5%float));
         mkEnriched Sample.tsla js_null js_null ].
Proof. split; vm_compute; reflexivity. Qed.

(** X2: a quote stored under exactly the holding's symbol is attached whole,
    and its [last] becomes [currentPrice] when it is truthy; a [last] that
    is missing, [null], zero or otherwise falsy becomes [null]. *)
Lemma enrich_own_quote (pm : PriceMap) (h : Holding) (q : list (string * json)) :
  own pm !! symbol h = Some (JObject q) ->
  priceData (enrich pm h) = Json (JObject q)
  /\ currentPrice (enrich pm h)
     = match assoc "last" q with
       | Some l => if truthy (Json l) then Json l else js_null
       | None => js_null
       end.
Proof.
  intros Hq. unfold enrich, priceMap_get. cbn [priceData currentPrice]. rewrite Hq.
  split; [reflexivity|].
  unfold get_named_opt, get_named, js_or.
  destruct (assoc "last" q) as [l|]; reflexivity.
Qed.

(** X3: a symbol the map has no property for, own or inherited, gets the
    absent marker in both fields. *)
Lemma enrich_unmatched (pm : PriceMap) (h : Holding) :
  own pm !! symbol h = None ->
  proto pm = None ->
  is_prototype_method (symbol h) = false ->
  String.eqb (symbol h) "__proto__" = false ->
  enrich pm h = mkEnriched h js_null js_null.
Proof.
  intros Ho Hp Hm Hq. unfold enrich, priceMap_get. rewrite Ho, Hp, Hq, Hm. reflexivity.
Qed.

Lemma enriched_json_null_fields (h : Holding) :
  has_null_price_fields (enriched_json (mkEnriched h js_null js_null)) = true.
Proof. reflexivity. Qed.

(** The lookup is by exact string: a quote stored under another casing of
    the symbol is not found. *)
Example enrich_is_case_sensitive :
  enrich (mkPriceMap {[ "aapl" := Sample.quote "aapl" 191.25%float ]} None) Sample.aapl
  = mkEnriched Sample.aapl js_null js_null.
Proof. vm_compute. reflexivity. Qed.

(** C5 at the input on which the code departs from it: the quote for the
    holding's symbol is found and attached as [priceData], its last price
    is 0, and [currentPrice] is the absent marker, not 0. *)
Lemma enrich_zero_last_price_is_null :
  build_priceMap Sample.number_text (JArray [Sample.quote "AAPL" 0%float])
  = Ok (mkPriceMap {[ "AAPL" := Sample.quote "AAPL" 0%float ]} None)
  /\ enrich (mkPriceMap {[ "AAPL" := Sample.quote "AAPL" 0%float ]} None) Sample.aapl
     = mkEnriched Sample.aapl js_null (Json (Sample.quote "AAPL" 0%float))
  /\ currentPrice (enrich (mkPriceMap {[ "AAPL" := Sample.quote "AAPL" 0%float ]} None)
                          Sample.aapl)
     <> Json (JNumber 0%float).
Proof.
  split; [vm_compute; reflexivity|]. split; [vm_compute; reflexivity|].
  vm_compute. discriminate.
Qed.

(** ** POST /api/holdings *)

(** The handler's validation: every body whose [shares] is a number not
    above zero, or whose [avg_price] is a number below zero, is answered
    400 with a validation message before any statement is prepared. *)
Lemma post_api_holdings_rejects (env : Env) (req : Request)
    (user : list (string * json)) (w : World) (body : json) :
  req_json req = Ok body ->
  (exists sh, get_named (Json body) "shares" = Json (JNumber sh)
              /\ PrimFloat.leb sh PrimFloat.zero = true)
  \/ (exists ap, get_named (Json body) "avg_price" = Json (JNumber ap)
                 /\ PrimFloat.ltb ap PrimFloat.zero = true) ->
  exists msg,
    Clerk.post_api_holdings env req user w = (Ok (c_json (error_body msg) 400), w).
Proof.
  intros Hbody Hbad.
  unfold Clerk.post_api_holdings, try_catch, bind, lift. rewrite Hbody.
  assert (Hnn : body <> JNull).
  { intros ->. destruct Hbad as [(sh & H & _)|(ap & H & _)]; discriminate H. }
  destruct body as [|b|n|s|xs|ps]; try congruence;
    try (destruct Hbad as [(sh & H & _)|(ap & H & _)]; discriminate H).
  set (vsym := get_named (Json (JObject ps)) "symbol").
  set (vname := get_named (Json (JObject ps)) "name").
  set (vsh := get_named (Json (JObject ps)) "shares") in *.
  set (vap := get_named (Json (JObject ps)) "avg_price") in *.
  destruct (negb (truthy vsym) || negb (truthy vname)
            || Clerk.is_undefined vsh || Clerk.is_undefined vap).
  { eexists. reflexivity. }
  destruct (Clerk.as_number vsh) as [sh|] eqn:Hsh.
  2:{ eexists. reflexivity. }
  destruct (Clerk.as_number vap) as [ap|] eqn:Hap.
  2:{ eexists. reflexivity. }
  destruct (PrimFloat.is_nan sh || negb (PrimFloat.is_finite sh)
            || PrimFloat.is_nan ap || negb (PrimFloat.is_finite ap)).
  { eexists. reflexivity. }
  destruct (PrimFloat.leb sh PrimFloat.zero) eqn:Hle.
  { eexists. reflexivity. }
  destruct (PrimFloat.ltb ap PrimFloat.zero) eqn:Hlt.
  { eexists. reflexivity. }
  exfalso. destruct Hbad as [(sh' & H & Hle')|(ap' & H & Hlt')].
  - rewrite H in Hsh. cbn in Hsh. inversion Hsh; subst. congruence.
  - rewrite H in Hap. cbn in Hap. inversion Hap; subst. congruence.
Qed.

(** C7: an authenticated create request whose [shares] is zero or
    negative, or whose [avg_price] is negative, is answered 400 with a
    validation message, and the world after it differs from the world
    before only by the middleware's verification event: no row is added
    and the row counter does not move. *)
Theorem invalid_holding_rejected_before_insert (env : Env) (req : Request) (w : World)
    (token : string) (payload : list (string * json)) (body : json) :
  clerk_identity env req = Some (token, payload) ->
  req_json req = Ok body ->
  (exists sh, get_named (Json body) "shares" = Json (JNumber sh)
              /\ PrimFloat.leb sh PrimFloat.zero = true)
  \/ (exists ap, get_named (Json body) "avg_price" = Json (JNumber ap)
                 /\ PrimFloat.ltb ap PrimFloat.zero = true) ->
  exists msg w',
    Clerk.POST_api_holdings env req w
    = (Ok (mkResponse 400 (Some (JObject [("error", JString msg)]))), w')
    /\ holdings_table w' = holdings_table w
    /\ last_row_id w' = last_row_id w
    /\ w' = verified env token w.
Proof.
  intros Hid Hbody Hbad.
  destruct (post_api_holdings_rejects env req payload (verified env token w) body Hbody Hbad)
    as (msg & Hpost).
  exists msg, (verified env token w).
  through_middleware Hid.
  rewrite Hpost. repeat split.
Qed.

(** On the sample deployment, creating a holding with zero shares is
    answered 400 and the table keeps its three rows. *)
Lemma invalid_holding_rejected_before_insert_witness :
  exists msg w',
    Clerk.POST_api_holdings Sample.env_down
      (Sample.post "token-u1"
         (JObject [("symbol", JString "AAPL"); ("name", JString "Apple Inc.");
                   ("shares", JNumber 0%float); ("avg_price", JNumber 150%float)]))
      Sample.world
    = (Ok (mkResponse 400 (Some (JObject [("error", JString msg)]))), w')
    /\ holdings_table w' = holdings_table Sample.world
    /\ last_row_id w' = last_row_id Sample.world
    /\ w' = verified Sample.env_down "token-u1" Sample.world.
Proof.
  apply (invalid_holding_rejected_before_insert
           Sample.env_down _ Sample.world
           "token-u1" [("sub", JString "u1"); ("iss", JString Sample.issuer)]
           (JObject [("symbol", JString "AAPL"); ("name", JString "Apple Inc.");
                     ("shares", JNumber 0%float); ("avg_price", JNumber 150%float)])).
  - reflexivity.
  - reflexivity.
  - left. exists 0%float. split; reflexivity.
Defined.

(** A valid body is inserted and answered 201, for contrast. *)
Example valid_holding_is_inserted :
  Clerk.POST_api_holdings Sample.env_down
    (Sample.post "token-u2"
       (JObject [("symbol", JString "AAPL"); ("name", JString "Apple Inc.");
                 ("shares", JNumber 10%float); ("avg_price", JNumber 150%float)]))
    Sample.world
  = (Ok (mkResponse 201
           (Some (JObject [("success", JBool true); ("id", JNumber 4%float);
                           ("message", JString "Holding added successfully")]))),
     mkWorld [Sample.aapl; Sample.msft; Sample.tsla;
              mkHolding 4 "u2" "AAPL" "Apple Inc." 10%float 150%float]
             4
             [EvJwtVerify "token-u2" (clerk_jwks_url Sample.env_down) Sample.issuer]).
Proof. vm_compute. reflexivity. Qed.

(** ** GET /api/news *)

Lemma get_api_news_provider_failure (env : Env) (user : list (string * json))
    (w : World) (rows : list Holding) (resp : FetchResponse) :
  d1_select env (subject user) (holdings_table w) = Ok rows ->
  uniq [] (map symbol rows) <> [] ->
  fetch env (news_url (uniq [] (map symbol rows))) (Clerk.tiingo_authorization env) = Ok resp ->
  ok resp = false ->
  Clerk.get_api_news env user w
  = (Ok Clerk.news_failed_response,
     log (EvFetch (news_url (uniq [] (map symbol rows))) (Clerk.tiingo_authorization env)) w).
Proof.
  intros Hsel Hne Hfetch Hok.
  apply length_zero_iff_nil in Hne.
  unfold Clerk.get_api_news, try_catch, bind, select_distinct_symbols, bind, ret,
    select_holdings, subject in *.
  rewrite Hsel, Hne.
  unfold Clerk.call_fetch, bind, emit, lift, news_url in *.
  rewrite Hfetch, Hok. reflexivity.
Qed.

Lemma uniq_nonempty (seen l : list string) (x : string) :
  existsb (String.eqb x) seen = false -> uniq seen (x :: l) <> [].
Proof. intros H. cbn. rewrite H. discriminate. Qed.

(** C8: when the news request comes back with a non-success status, an
    authenticated [GET /api/news] of a subject with holdings is answered
    500 with the error "Failed to fetch news"; it does not degrade to an
    empty list. *)
Theorem news_provider_failure_is_500 (env : Env) (req : Request) (w : World)
    (token : string) (payload : list (string * json))
    (rows : list Holding) (resp : FetchResponse) :
  clerk_identity env req = Some (token, payload) ->
  d1_select env (subject payload) (holdings_table w) = Ok rows ->
  rows <> [] ->
  fetch env (news_url (uniq [] (map symbol rows))) (Clerk.tiingo_authorization env) = Ok resp ->
  ok resp = false ->
  fst (Clerk.GET_api_news env req w)
  = Ok (mkResponse 500 (Some (JObject [("error", JString "Failed to fetch news")]))).
Proof.
  intros Hid Hsel Hne Hfetch Hok.
  through_middleware Hid.
  rewrite (get_api_news_provider_failure env payload _ rows resp); auto.
  destruct rows as [|h rest]; [congruence|].
  cbn [map]. apply uniq_nonempty. reflexivity.
Qed.

(** On the sample deployment with the provider answering 503, [u1]'s news
    request is answered 500. *)
Lemma news_provider_failure_is_500_witness :
  fst (Clerk.GET_api_news Sample.env_down (Sample.request "token-u1") Sample.world)
  = Ok (mkResponse 500 (Some (JObject [("error", JString "Failed to fetch news")]))).
Proof.
  apply (news_provider_failure_is_500
           Sample.env_down (Sample.request "token-u1") Sample.world
           "token-u1" [("sub", JString "u1"); ("iss", JString Sample.issuer)]
           [Sample.aapl; Sample.msft]
           (mkFetchResponse false (Ok (JObject [("detail", JString "Service unavailable")])))).
  - reflexivity.
  - reflexivity.
  - discriminate.
  - reflexivity.
  - reflexivity.
Defined.

(** ** A subject without holdings *)

(** C9: when the subject has no holdings, [GET /api/holdings] and
    [GET /api/news] both answer 200 with the empty list, and the only
    event of the request is the middleware's token verification: no
    request goes to the market-data provider. *)
Theorem no_holdings_no_provider_call (env : Env) (req : Request) (w : World)
    (token : string) (payload : list (string * json)) :
  clerk_identity env req = Some (token, payload) ->
  d1_select env (subject payload) (holdings_table w) = Ok [] ->
  Clerk.GET_api_holdings env req w
  = (Ok (mkResponse 200 (Some (JArray []))), verified env token w)
  /\ Clerk.GET_api_news env req w
     = (Ok (mkResponse 200 (Some (JArray []))), verified env token w)
  /\ trace (verified env token w)
     = (trace w ++ [EvJwtVerify token (clerk_jwks_url env) (CLERK_ISSUER_URL env)])%list.
Proof.
  intros Hid Hsel.
  unfold Clerk.GET_api_holdings, Clerk.GET_api_news.
  rewrite (clerk_route_runs_handler _ _ _ _ _ _ Hid (get_api_holdings_answers _ _ _)).
  rewrite (clerk_route_runs_handler _ _ _ _ _ _ Hid (get_api_news_answers _ _ _)).
  unfold Clerk.get_api_holdings, Clerk.get_api_news, try_catch, bind,
    select_distinct_symbols, bind, ret, select_holdings, subject in *.
  cbn [holdings_table verified log]. rewrite Hsel.
  repeat split.
Qed.

(** On the sample deployment a verified caller with no rows gets the
    empty list from both routes, with no [EvFetch] in the trace. *)
Lemma no_holdings_no_provider_call_witness :
  Clerk.GET_api_holdings Sample.env_down (Sample.request "token-u2")
    (mkWorld [Sample.aapl; Sample.msft] 3 [])
  = (Ok (mkResponse 200 (Some (JArray []))),
     verified Sample.env_down "token-u2" (mkWorld [Sample.aapl; Sample.msft] 3 []))
  /\ Clerk.GET_api_news Sample.env_down (Sample.request "token-u2")
       (mkWorld [Sample.aapl; Sample.msft] 3 [])
     = (Ok (mkResponse 200 (Some (JArray []))),
        verified Sample.env_down "token-u2" (mkWorld [Sample.aapl; Sample.msft] 3 []))
  /\ trace (verified Sample.env_down "token-u2" (mkWorld [Sample.aapl; Sample.msft] 3 []))
     = (trace (mkWorld [Sample.aapl; Sample.msft] 3 [])
        ++ [EvJwtVerify "token-u2" (clerk_jwks_url Sample.env_down)
              (CLERK_ISSUER_URL Sample.env_down)])%list.
Proof.
  apply (no_holdings_no_provider_call
           Sample.env_down (Sample.request "token-u2") (mkWorld [Sample.aapl; Sample.msft] 3 [])
           "token-u2" [("sub", JString "u2"); ("iss", JString Sample.issuer)]).
  - reflexivity.
  - reflexivity.
Defined.

(** ** GET /api/holdings when the provider's body is not an array *)

Lemma build_priceMap_not_array (nts : float -> string) (body : json) :
  is_array body = false -> build_priceMap nts body = Ok priceMap_empty.
Proof. destruct body; cbn; intros H; try reflexivity. discriminate H. Qed.

(** On the empty map a symbol is unmatched unless it names a member every
    object inherits. *)
Lemma enrich_empty_map (h : Holding) :
  is_prototype_method (symbol h) = false ->
  String.eqb (symbol h) "__proto__" = false ->
  enrich priceMap_empty h = mkEnriched h js_null js_null.
Proof.
  intros Hm Hq. unfold enrich, priceMap_get, priceMap_empty. cbn [own proto].
  rewrite lookup_empty, Hq, Hm. reflexivity.
Qed.

Lemma enrichedHoldings_empty_map (holdings : list Holding) :
  forallb plain_symbol holdings = true ->
  enrichedHoldings priceMap_empty holdings
  = map (fun h => mkEnriched h js_null js_null) holdings.
Proof.
  induction holdings as [|h rest IH]; [reflexivity|].
  cbn [forallb]. intros H. apply andb_prop in H as [Hh Hrest].
  unfold plain_symbol in Hh. apply andb_prop in Hh as [Hm Hq].
  apply negb_true_iff in Hm, Hq.
  unfold enrichedHoldings in *. cbn [map].
  rewrite (enrich_empty_map h Hm Hq), (IH Hrest). reflexivity.
Qed.

Lemma get_api_holdings_merges (env : Env) (user : list (string * json))
    (w : World) (holdings : list Holding) (resp : FetchResponse)
    (body : json) (pm : PriceMap) :
  d1_select env (subject user) (holdings_table w) = Ok holdings ->
  holdings <> [] ->
  fetch env (price_url holdings) (Clerk.tiingo_authorization env) = Ok resp ->
  ok resp = true ->
  json_body resp = Ok body ->
  build_priceMap (number_to_string env) body = Ok pm ->
  Clerk.get_api_holdings env user w
  = (Ok (respond (JArray (map enriched_json (enrichedHoldings pm holdings))) 200),
     log (EvFetch (price_url holdings) (Clerk.tiingo_authorization env)) w).
Proof.
  intros Hsel Hne Hfetch Hok Hbody Hpm.
  apply length_zero_iff_nil in Hne.
  unfold Clerk.get_api_holdings, try_catch, bind, select_holdings, subject in *.
  rewrite Hsel, Hne.
  unfold Clerk.call_fetch, bind, emit, lift, price_url in *.
  rewrite Hfetch, Hok. cbn [negb]. rewrite Hbody, Hpm. reflexivity.
Qed.

(** X1: for holdings whose symbols name no member inherited from
    [Object.prototype], a successful provider response whose body is not
    an array is answered 200 with every holding carrying [null] in both
    price fields. *)
Theorem holdings_non_array_body_degrades (env : Env) (req : Request) (w : World)
    (token : string) (payload : list (string * json))
    (holdings : list Holding) (resp : FetchResponse) (body : json) :
  clerk_identity env req = Some (token, payload) ->
  d1_select env (subject payload) (holdings_table w) = Ok holdings ->
  holdings <> [] ->
  fetch env (price_url holdings) (Clerk.tiingo_authorization env) = Ok resp ->
  ok resp = true ->
  json_body resp = Ok body ->
  is_array body = false ->
  forallb plain_symbol holdings = true ->
  exists items,
    fst (Clerk.GET_api_holdings env req w) = Ok (mkResponse 200 (Some (JArray items)))
    /\ items = map (fun h => enriched_json (mkEnriched h js_null js_null)) holdings
    /\ forallb has_null_price_fields items = true.
Proof.
  intros Hid Hsel Hne Hfetch Hok Hbody Harr Hplain.
  exists (map (fun h => enriched_json (mkEnriched h js_null js_null)) holdings).
  split; [|split].
  - through_middleware Hid.
    rewrite (get_api_holdings_merges env payload _ holdings resp body priceMap_empty); auto.
    + rewrite (enrichedHoldings_empty_map _ Hplain), map_map. reflexivity.
    + apply build_priceMap_not_array. exact Harr.
  - reflexivity.
  - clear. induction holdings as [|h rest IH]; [reflexivity|].
    cbn [map forallb]. rewrite enriched_json_null_fields. exact IH.
Qed.

Lemma holdings_non_array_body_degrades_witness :
  exists items,
    fst (Clerk.GET_api_holdings Sample.env_error_object (Sample.request "token-u1") Sample.world)
    = Ok (mkResponse 200 (Some (JArray items)))
    /\ items = map (fun h => enriched_json (mkEnriched h js_null js_null))
                   [Sample.aapl; Sample.msft]
    /\ forallb has_null_price_fields items = true.
Proof.
  apply (holdings_non_array_body_degrades
           Sample.env_error_object (Sample.request "token-u1") Sample.world
           "token-u1" [("sub", JString "u1"); ("iss", JString Sample.issuer)]
           [Sample.aapl; Sample.msft]
           (mkFetchResponse true (Ok (JObject [("detail", JString "Not found")])))
           (JObject [("detail", JString "Not found")])); try reflexivity.
  discriminate.
Defined.

(** A holding whose symbol is [constructor] can be created: the handler
    only asks for a truthy symbol. *)
Example constructor_holding_is_created :
  Clerk.POST_api_holdings Sample.env_error_object
    (Sample.post "token-u2"
       (JObject [("symbol", JString "constructor"); ("name", JString "Constructor Corp");
                 ("shares", JNumber 1%float); ("avg_price", JNumber 1%float)]))
    (mkWorld [] 0 [])
  = (Ok (mkResponse 201
           (Some (JObject [("success", JBool true); ("id", JNumber 1%float);
                           ("message", JString "Holding added successfully")]))),
     mkWorld [mkHolding 1 "u2" "constructor" "Constructor Corp" 1%float 1%float] 1
             [EvJwtVerify "token-u2" (clerk_jwks_url Sample.env_error_object) Sample.issuer]).
Proof. vm_compute. reflexivity. Qed.

(** C10 at the input on which the code departs from it: the provider
    answers 200 with an error object, the price map stays empty, and the
    row whose symbol is [constructor] finds the inherited
    [Object.prototype.constructor] there.  The answer is 200 and
    [currentPrice] is [null], but [priceData] is a function, which
    [JSON.stringify] leaves out: the row has no [priceData] field. *)
Lemma constructor_symbol_loses_priceData :
  build_priceMap Sample.number_text (JObject [("detail", JString "Not found")])
  = Ok priceMap_empty
  /\ priceData (enrich priceMap_empty
                       (mkHolding 1 "u2" "constructor" "Constructor Corp" 1%float 1%float))
     = Builtin "constructor"
  /\ fst (Clerk.GET_api_holdings Sample.env_error_object (Sample.request "token-u2")
            (mkWorld [mkHolding 1 "u2" "constructor" "Constructor Corp" 1%float 1%float] 1 []))
     = Ok (mkResponse 200
             (Some (JArray [JObject [ ("id", JNumber 1%float);
                                      ("user_id", JString "u2");
                                      ("symbol", JString "constructor");
                                      ("name", JString "Constructor Corp");
                                      ("shares", JNumber 1%float);
                                      ("avg_price", JNumber 1%float);
                                      ("currentPrice", JNull) ]]))).
Proof. repeat split; vm_compute; reflexivity. Qed.

(** The same departure seen from the route: the provider quotes AAPL at
    0 and the row is answered with [currentPrice] null next to the quote
    itself. *)
Example zero_last_price_in_response :
  fst (Clerk.GET_api_holdings
         (Sample.env Sample.issuer (Sample.provider_quotes [Sample.quote "AAPL" 0%float]))
         (Sample.request "token-u1")
         (mkWorld [Sample.aapl] 1 []))
  = Ok (mkResponse 200
          (Some (JArray [JObject [ ("id", JNumber 1%float);
                                   ("user_id", JString "u1");
                                   ("symbol", JString "AAPL");
                                   ("name", JString "Apple Inc.");
                                   ("shares", JNumber 10%float);
                                   ("avg_price", JNumber 150%float);
                                   ("currentPrice", JNull);
                                   ("priceData",
                                    JObject [("ticker", JString "AAPL");
                                             ("last", JNumber 0%float)]) ]]))).
Proof. vm_compute. reflexivity. Qed.

Lemma enrich_own_quote_witness :
  priceData (enrich (mkPriceMap {[ "AAPL" := Sample.quote "AAPL" 191.25%float ]} None)
                    Sample.aapl)
  = Json (JObject [("ticker", JString "AAPL"); ("last", JNumber 191.25%float)])
  /\ currentPrice (enrich (mkPriceMap {[ "AAPL" := Sample.quote "AAPL" 191.25%float ]} None)
                          Sample.aapl)
     = match assoc "last" [("ticker", JString "AAPL"); ("last", JNumber 191.25%float)] with
       | Some l => if truthy (Json l) then Json l else js_null
       | None => js_null
       end.
Proof.
  apply (enrich_own_quote
           (mkPriceMap {[ "AAPL" := Sample.quote "AAPL" 191.25%float ]} None)
           Sample.aapl
           [("ticker", JString "AAPL"); ("last", JNumber 191.25%float)]).
  vm_compute. reflexivity.
Defined.

Lemma enrich_unmatched_witness :
  enrich (mkPriceMap {[ "MSFT" := Sample.quote "MSFT" 410.5%float ]} None) Sample.aapl
  = mkEnriched Sample.aapl js_null js_null.
Proof.
  apply (enrich_unmatched
           (mkPriceMap {[ "MSFT" := Sample.quote "MSFT" 410.5%float ]} None) Sample.aapl).
  - vm_compute. reflexivity.
  - reflexivity.
  - reflexivity.
  - reflexivity.
Defined.

(** ** GET /api/holdings when the request to the provider itself fails *)

(** X4: when [fetch] rejects (the provider cannot be reached), the
    handler's [catch] block answers 500 with the exception's message as
    details. *)
Theorem holdings_provider_unreachable_is_500 (env : Env) (req : Request) (w : World)
    (token : string) (payload : list (string * json))
    (holdings : list Holding) (e : exn) :
  clerk_identity env req = Some (token, payload) ->
  d1_select env (subject payload) (holdings_table w) = Ok holdings ->
  holdings <> [] ->
  fetch env (price_url holdings) (Clerk.tiingo_authorization env) = Throw e ->
  fst (Clerk.GET_api_holdings env req w)
  = Ok (mkResponse 500 (Some (JObject [("error", JString "Failed to fetch holdings");
                                        ("details", JString (errorMessage e))]))).
Proof.
  intros Hid Hsel Hne Hfetch.
  through_middleware Hid.
  apply length_zero_iff_nil in Hne.
  unfold Clerk.get_api_holdings, try_catch, bind, select_holdings, subject in *.
  cbn [holdings_table verified log]. rewrite Hsel, Hne.
  unfold Clerk.call_fetch, bind, emit, lift, price_url in *.
  rewrite Hfetch. reflexivity.
Qed.

Lemma holdings_provider_unreachable_is_500_witness :
  fst (Clerk.GET_api_holdings
         (Sample.env Sample.issuer (fun _ _ => Throw (Error "Network connection lost")))
         (Sample.request "token-u1") Sample.world)
  = Ok (mkResponse 500
          (Some (JObject [("error", JString "Failed to fetch holdings");
                          ("details", JString (errorMessage (Error "Network connection lost")))]))).
Proof.
  apply (holdings_provider_unreachable_is_500
           (Sample.env Sample.issuer (fun _ _ => Throw (Error "Network connection lost")))
           (Sample.request "token-u1") Sample.world
           "token-u1" [("sub", JString "u1"); ("iss", JString Sample.issuer)]
           [Sample.aapl; Sample.msft] (Error "Network connection lost")).
  - reflexivity.
  - reflexivity.
  - discriminate.
  - reflexivity.
Defined.

(** * Further properties *)

(** ** The bearer token *)

Lemma split_on_head (s : string) :
  exists tl, split_on space s = up_to_space s :: tl.
Proof.
  induction s as [|c rest [tl IH]]; cbn [split_on up_to_space].
  - exists []. reflexivity.
  - destruct (Ascii.eqb c space).
    + eexists. reflexivity.
    + rewrite IH. eexists. reflexivity.
Qed.

Lemma bearer_prefix_inv (h : string) :
  String.prefix "Bearer " h = true -> exists rest, h = "Bearer " ++ rest.
Proof.
  intros H.
  do 7 (destruct h as [|[[] [] [] [] [] [] [] []] h]; try discriminate H).
  exists h. reflexivity.
Qed.

(** X5: for every Authorization header that starts with the scheme
    [Bearer] and a space, the token handed to [jwtVerify] is the text after
    the scheme up to the next space; the rest of the header is ignored and
    the token is never undefined. *)
Theorem bearer_token_is_first_word (req : Request) (h : string) :
  authorization req = Some h ->
  String.prefix "Bearer " h = true ->
  exists rest, h = "Bearer " ++ rest /\ bearer_token req = Some (up_to_space rest).
Proof.
  intros Hh Hp. destruct (bearer_prefix_inv h Hp) as [rest ->].
  exists rest. split; [reflexivity|].
  unfold bearer_token. rewrite Hh, Hp.
  destruct (split_on_head rest) as [tl Htl].
  cbv [String.append]. cbn. rewrite Htl. reflexivity.
Qed.

Lemma bearer_token_is_first_word_witness :
  exists rest,
    "Bearer abc.def trailing" = "Bearer " ++ rest
    /\ bearer_token (mkRequest (Some "Bearer abc.def trailing") (Ok JNull) "")
       = Some (up_to_space rest).
Proof.
  apply (bearer_token_is_first_word
           (mkRequest (Some "Bearer abc.def trailing") (Ok JNull) "")
           "Bearer abc.def trailing").
  - reflexivity.
  - reflexivity.
Defined.

(** ** What a handler may do to the world *)

Ltac answered :=
  eexists _, _; split; [reflexivity|]; cbn; repeat split; eauto 6.

Lemma get_api_holdings_frame (env : Env) (user : list (string * json)) (w : World) :
  exists r w',
    Clerk.get_api_holdings env user w = (Ok r, w')
    /\ (status r = 200 \/ status r = 500)
    /\ holdings_table w' = holdings_table w
    /\ last_row_id w' = last_row_id w
    /\ (trace w' = trace w
        \/ exists url, trace w' = (trace w ++ [EvFetch url (Clerk.tiingo_authorization env)])%list).
Proof.
  unfold Clerk.get_api_holdings, try_catch, bind, select_holdings, Clerk.call_fetch,
    bind, emit, lift, ret.
  destruct (d1_select env _ (holdings_table w)) as [holdings|e].
  2:{ answered. }
  destruct (length holdings =? 0)%nat.
  { answered. }
  destruct (fetch env _ _) as [resp|e].
  2:{ answered. }
  destruct (ok resp); cbn [negb].
  2:{ answered. }
  destruct (json_body resp) as [data|e].
  2:{ answered. }
  destruct (build_priceMap _ data) as [pm|e].
  - answered.
  - answered.
Qed.

Lemma get_api_news_frame (env : Env) (user : list (string * json)) (w : World) :
  exists r w',
    Clerk.get_api_news env user w = (Ok r, w')
    /\ (status r = 200 \/ status r = 500)
    /\ holdings_table w' = holdings_table w
    /\ last_row_id w' = last_row_id w
    /\ (trace w' = trace w
        \/ exists url, trace w' = (trace w ++ [EvFetch url (Clerk.tiingo_authorization env)])%list).
Proof.
  unfold Clerk.get_api_news, try_catch, bind, select_distinct_symbols, bind, select_holdings,
    Clerk.call_fetch, bind, emit, lift, ret.
  destruct (d1_select env _ (holdings_table w)) as [rows|e].
  2:{ answered. }
  destruct (length (uniq [] (map symbol rows)) =? 0)%nat.
  { answered. }
  destruct (fetch env _ _) as [resp|e].
  2:{ answered. }
  destruct (ok resp); cbn [negb].
  2:{ answered. }
  destruct (json_body resp) as [data|e].
  - answered.
  - answered.
Qed.

Lemma validated_row_is_valid (i : Z) (u s n : string) (sh ap : float) :
  (PrimFloat.is_nan sh || negb (PrimFloat.is_finite sh)
   || PrimFloat.is_nan ap || negb (PrimFloat.is_finite ap)) = false ->
  PrimFloat.leb sh PrimFloat.zero = false ->
  PrimFloat.ltb ap PrimFloat.zero = false ->
  row_valid (mkHolding i u s n sh ap) = true.
Proof.
  intros Hfin Hle Hlt. unfold row_valid. cbn [shares avg_price]. rewrite Hle, Hlt.
  destruct (PrimFloat.is_finite sh), (PrimFloat.is_finite ap);
    destruct (PrimFloat.is_nan sh), (PrimFloat.is_nan ap); cbn in *; congruence.
Qed.

Lemma post_api_holdings_frame (env : Env) (req : Request) (user : list (string * json))
    (w : World) :
  exists r w',
    Clerk.post_api_holdings env req user w = (Ok r, w')
    /\ (((status r = 400 \/ status r = 500) /\ w' = w)
        \/ (status r = 201
            /\ exists u s n sh ap,
                 d1_bind_text env (subject user) = BindText u
                 /\ row_valid (mkHolding (last_row_id w + 1) u s n sh ap) = true
                 /\ w' = mkWorld (holdings_table w
                                  ++ [mkHolding (last_row_id w + 1) u s n sh ap])
                                 (last_row_id w + 1) (trace w))).
Proof.
  unfold Clerk.post_api_holdings, try_catch, bind, lift, ret.
  destruct (req_json req) as [body|e].
  2:{ answered. }
  assert (Hgo :
    forall ps,
      exists r w',
        (let (o, w') :=
           (let symbol := get_named (Json (JObject ps)) "symbol" in
            let name := get_named (Json (JObject ps)) "name" in
            let shares := get_named (Json (JObject ps)) "shares" in
            let avg_price := get_named (Json (JObject ps)) "avg_price" in
            if negb (truthy symbol) || negb (truthy name)
               || Clerk.is_undefined shares || Clerk.is_undefined avg_price
            then ret (c_json (error_body "Missing required fields: symbol, name, shares, avg_price") 400)
            else
              match Clerk.as_number shares, Clerk.as_number avg_price with
              | Some sh, Some ap =>
                  if PrimFloat.is_nan sh || negb (PrimFloat.is_finite sh)
                     || PrimFloat.is_nan ap || negb (PrimFloat.is_finite ap)
                  then ret (c_json (error_body "shares and avg_price must be valid numbers") 400)
                  else if PrimFloat.leb sh PrimFloat.zero
                  then ret (c_json (error_body "shares must be greater than 0") 400)
                  else if PrimFloat.ltb ap PrimFloat.zero
                  then ret (c_json (error_body "avg_price must be non-negative") 400)
                  else
                    bind (insert_holding env (get_named (user_value user) "sub") symbol name sh ap)
                      (fun last_id =>
                         ret (c_json (Json (JObject [ ("success", JBool true);
                                                      ("id", JNumber (number_of_Z last_id));
                                                      ("message", JString "Holding added successfully") ]))
                                     201))
              | _, _ => ret (c_json (error_body "shares and avg_price must be numbers") 400)
              end) w in
         match o with
         | Ok a => (Ok a, w')
         | Throw e0 =>
             (Ok (c_json (error_details_body "Failed to create holding" (errorMessage e0)) 500), w')
         end) = (Ok r, w')
        /\ (((status r = 400 \/ status r = 500) /\ w' = w)
            \/ (status r = 201
                /\ exists u s n sh ap,
                     d1_bind_text env (subject user) = BindText u
                     /\ row_valid (mkHolding (last_row_id w + 1) u s n sh ap) = true
                     /\ w' = mkWorld (holdings_table w
                                      ++ [mkHolding (last_row_id w + 1) u s n sh ap])
                                     (last_row_id w + 1) (trace w)))).
  { intros ps. cbv zeta.
    destruct (negb (truthy _) || negb (truthy _) || Clerk.is_undefined _ || Clerk.is_undefined _).
    { answered. }
    destruct (Clerk.as_number (get_named (Json (JObject ps)) "shares")) as [sh|].
    2:{ answered. }
    destruct (Clerk.as_number (get_named (Json (JObject ps)) "avg_price")) as [ap|].
    2:{ answered. }
    destruct (PrimFloat.is_nan sh || negb (PrimFloat.is_finite sh)
              || PrimFloat.is_nan ap || negb (PrimFloat.is_finite ap)) eqn:Hfin.
    { answered. }
    destruct (PrimFloat.leb sh PrimFloat.zero) eqn:Hle.
    { answered. }
    destruct (PrimFloat.ltb ap PrimFloat.zero) eqn:Hlt.
    { answered. }
    unfold insert_holding, bind, d1_ready, ret, throw, subject.
    destruct (d1_unavailable env) as [e|].
    { answered. }
    destruct (d1_bind_text env (get_named (user_value user) "sub")) as [e| |u] eqn:Hu;
      destruct (d1_bind_text env (get_named (Json (JObject ps)) "symbol")) as [e'| |s];
      destruct (d1_bind_text env (get_named (Json (JObject ps)) "name")) as [e''| |n];
      try (answered; fail).
    eexists _, _. split; [reflexivity|]. right. split; [reflexivity|].
    exists u, s, n, sh, ap. split; [reflexivity|]. split; [|reflexivity].
    apply validated_row_is_valid; assumption. }
  destruct body as [|b|x|s|xs|ps]; try apply Hgo.
  - answered.
  - answered.
  - answered.
  - answered.
  - answered.
Qed.

Lemma delete_api_holdings_id_frame (env : Env) (req : Request)
    (user : list (string * json)) (w : World) :
  exists r w',
    Clerk.delete_api_holdings_id env req user w = (Ok r, w')
    /\ trace w' = trace w
    /\ last_row_id w' = last_row_id w
    /\ (((status r = 404 \/ status r = 500) /\ holdings_table w' = holdings_table w)
        \/ exists u,
             d1_bind_text env (subject user) = BindText u
             /\ (status r = 200 \/ status r = 404)
             /\ holdings_table w'
                = List.filter (fun h => negb (delete_matches env (param_id req) u h))
                    (holdings_table w)).
Proof.
  unfold Clerk.delete_api_holdings_id, try_catch, bind, delete_holding, bind, d1_ready,
    ret, throw, subject.
  destruct (d1_unavailable env) as [e|].
  { answered. }
  destruct (d1_bind_text env (get_named (user_value user) "sub")) as [e| |u] eqn:Hu.
  - answered.
  - answered.
  - cbn. destruct (_ =? 0).
    + eexists _, _. split; [reflexivity|]. cbn.
      repeat split. right. exists u. auto.
    + eexists _, _. split; [reflexivity|]. cbn.
      repeat split. right. exists u. auto.
Qed.

(** ** What a route may do to the world *)

Lemma fetch_events_app (l1 l2 : list event) :
  fetch_events (l1 ++ l2) = (fetch_events l1 ++ fetch_events l2)%list.
Proof. apply List.filter_app. Qed.

(** The middleware either refuses with 401, having sent nothing to the
    provider and touched nothing, or passes the payload on. *)
Lemma clerk_gate (env : Env) (req : Request)
    (next : list (string * json) -> M Response) (w : World) :
  (clerk_identity env req = None
   /\ exists r w',
        Clerk.authMiddleware env req next w = (Ok r, w')
        /\ status r = 401
        /\ holdings_table w' = holdings_table w
        /\ last_row_id w' = last_row_id w
        /\ exists evs, trace w' = (trace w ++ evs)%list /\ fetch_events evs = [])
  \/ (exists token payload,
        clerk_identity env req = Some (token, payload)
        /\ Clerk.authMiddleware env req next w
           = try_catch (next payload) reject_token (verified env token w)).
Proof.
  destruct (clerk_identity env req) as [[token payload]|] eqn:Hid.
  { right. exists token, payload. split; [reflexivity|].
    apply clerk_middleware_accepts. exact Hid. }
  left. split; [reflexivity|].
  revert Hid. unfold clerk_identity, bearer_token, Clerk.authMiddleware.
  destruct (authorization req) as [h|].
  2:{ intros _. exists missing_token_response, w. repeat split.
      exists []. rewrite app_nil_r. auto. }
  destruct (String.eqb h "" || negb (String.prefix "Bearer " h)).
  { intros _. exists missing_token_response, w. repeat split.
    exists []. rewrite app_nil_r. auto. }
  unfold try_catch, bind, new_URL, call_jwtVerify, clerk_jwks_url.
  destruct (split_on space h !! 1%nat) as [t|].
  - destruct (url_parses env (CLERK_ISSUER_URL env ++ "/.well-known/jwks.json")); cbn.
    + unfold bind, emit, lift. cbn.
      destruct (jwtVerify env t _ _) as [p|e]; [discriminate|].
      intros _. eexists _, _. split; [reflexivity|]. cbn. repeat split.
      eexists. rewrite <- app_assoc. split; reflexivity.
    + intros _. eexists _, _. split; [reflexivity|]. cbn. repeat split.
      eexists. split; reflexivity.
  - intros _.
    destruct (url_parses env (CLERK_ISSUER_URL env ++ "/.well-known/jwks.json")); cbn;
      eexists _, _; (split; [reflexivity|]); cbn; repeat split;
      eexists; split; reflexivity.
Qed.

Lemma GET_api_holdings_route (env : Env) (req : Request) (w : World) :
  exists r w',
    Clerk.GET_api_holdings env req w = (Ok r, w')
    /\ (status r = 200 \/ status r = 401 \/ status r = 500)
    /\ holdings_table w' = holdings_table w
    /\ last_row_id w' = last_row_id w
    /\ exists evs,
         trace w' = (trace w ++ evs)%list
         /\ (fetch_events evs = []
             \/ exists token payload url,
                  clerk_identity env req = Some (token, payload)
                  /\ evs = [verification_event env token;
                            EvFetch url (Clerk.tiingo_authorization env)]).
Proof.
  unfold Clerk.GET_api_holdings.
  destruct (clerk_gate env req (Clerk.get_api_holdings env) w)
    as [(_ & r & w' & Hr & Hs & Ht & Hl & Hev)|(token & payload & Hid & Hr)].
  { exists r, w'. repeat split; auto. destruct Hev as (evs & ? & ?). eauto. }
  destruct (get_api_holdings_frame env payload (verified env token w))
    as (r & w' & Hn & Hs & Ht & Hl & Htr).
  rewrite Hr, (try_catch_ok _ _ _ _ _ Hn).
  exists r, w'. split; [reflexivity|]. split; [tauto|]. split; [exact Ht|]. split; [exact Hl|].
  destruct Htr as [Htr|(url & Htr)]; rewrite Htr; cbn [verified log trace].
  - eexists. split; [reflexivity|]. left. reflexivity.
  - eexists. rewrite <- app_assoc. split; [reflexivity|]. right.
    exists token, payload, url. auto.
Qed.

Lemma GET_api_news_route (env : Env) (req : Request) (w : World) :
  exists r w',
    Clerk.GET_api_news env req w = (Ok r, w')
    /\ (status r = 200 \/ status r = 401 \/ status r = 500)
    /\ holdings_table w' = holdings_table w
    /\ last_row_id w' = last_row_id w
    /\ exists evs,
         trace w' = (trace w ++ evs)%list
         /\ (fetch_events evs = []
             \/ exists token payload url,
                  clerk_identity env req = Some (token, payload)
                  /\ evs = [verification_event env token;
                            EvFetch url (Clerk.tiingo_authorization env)]).
Proof.
  unfold Clerk.GET_api_news.
  destruct (clerk_gate env req (Clerk.get_api_news env) w)
    as [(_ & r & w' & Hr & Hs & Ht & Hl & Hev)|(token & payload & Hid & Hr)].
  { exists r, w'. repeat split; auto. destruct Hev as (evs & ? & ?). eauto. }
  destruct (get_api_news_frame env payload (verified env token w))
    as (r & w' & Hn & Hs & Ht & Hl & Htr).
  rewrite Hr, (try_catch_ok _ _ _ _ _ Hn).
  exists r, w'. split; [reflexivity|]. split; [tauto|]. split; [exact Ht|]. split; [exact Hl|].
  destruct Htr as [Htr|(url & Htr)]; rewrite Htr; cbn [verified log trace].
  - eexists. split; [reflexivity|]. left. reflexivity.
  - eexists. rewrite <- app_assoc. split; [reflexivity|]. right.
    exists token, payload, url. auto.
Qed.

Lemma POST_api_holdings_route (env : Env) (req : Request) (w : World) :
  exists r w',
    Clerk.POST_api_holdings env req w = (Ok r, w')
    /\ (((status r = 400 \/ status r = 401 \/ status r = 500)
         /\ holdings_table w' = holdings_table w
         /\ last_row_id w' = last_row_id w)
        \/ (status r = 201
            /\ exists token payload u s n sh ap,
                 clerk_identity env req = Some (token, payload)
                 /\ d1_bind_text env (subject payload) = BindText u
                 /\ row_valid (mkHolding (last_row_id w + 1) u s n sh ap) = true
                 /\ holdings_table w'
                    = (holdings_table w ++ [mkHolding (last_row_id w + 1) u s n sh ap])%list
                 /\ last_row_id w' = last_row_id w + 1))
    /\ exists evs, trace w' = (trace w ++ evs)%list /\ fetch_events evs = [].
Proof.
  unfold Clerk.POST_api_holdings.
  destruct (clerk_gate env req (Clerk.post_api_holdings env req) w)
    as [(_ & r & w' & Hr & Hs & Ht & Hl & Hev)|(token & payload & Hid & Hr)].
  { exists r, w'. split; [exact Hr|]. split; [left; tauto|]. exact Hev. }
  destruct (post_api_holdings_frame env req payload (verified env token w))
    as (r & w' & Hn & Hcase).
  rewrite Hr, (try_catch_ok _ _ _ _ _ Hn).
  exists r, w'. split; [reflexivity|].
  destruct Hcase as [(Hs & ->)|(Hs & u & s & n & sh & ap & Hu & Hv & ->)].
  - split; [left; cbn; tauto|]. eexists. split; reflexivity.
  - split.
    + right. split; [exact Hs|]. exists token, payload, u, s, n, sh, ap. cbn. auto.
    + eexists. split; reflexivity.
Qed.

Lemma DELETE_api_holdings_id_route (env : Env) (req : Request) (w : World) :
  exists r w',
    Clerk.DELETE_api_holdings_id env req w = (Ok r, w')
    /\ last_row_id w' = last_row_id w
    /\ (((status r = 401 \/ status r = 404 \/ status r = 500)
         /\ holdings_table w' = holdings_table w)
        \/ exists token payload u,
             clerk_identity env req = Some (token, payload)
             /\ d1_bind_text env (subject payload) = BindText u
             /\ (status r = 200 \/ status r = 404)
             /\ holdings_table w'
                = List.filter (fun h => negb (delete_matches env (param_id req) u h))
                    (holdings_table w))
    /\ exists evs, trace w' = (trace w ++ evs)%list /\ fetch_events evs = [].
Proof.
  unfold Clerk.DELETE_api_holdings_id.
  destruct (clerk_gate env req (Clerk.delete_api_holdings_id env req) w)
    as [(_ & r & w' & Hr & Hs & Ht & Hl & Hev)|(token & payload & Hid & Hr)].
  { exists r, w'. split; [exact Hr|]. split; [exact Hl|]. split; [left; tauto|]. exact Hev. }
  destruct (delete_api_holdings_id_frame env req payload (verified env token w))
    as (r & w' & Hn & Htr & Hl & Hcase).
  rewrite Hr, (try_catch_ok _ _ _ _ _ Hn).
  exists r, w'. split; [reflexivity|]. split; [exact Hl|]. split.
  - destruct Hcase as [(Hs & Ht)|(u & Hu & Hs & Ht)].
    + left. cbn in Ht. tauto.
    + right. exists token, payload, u. cbn in Ht. auto.
  - rewrite Htr. cbn. eexists. split; reflexivity.
Qed.

(** ** Routes answer, and what they leave alone *)

(** X6: every route of the holdings API answers every request, whatever
    the token, the body, the database and the provider do: it never lets
    an exception escape, and its status is one of those the route is
    written to give. *)
Theorem routes_always_answer (env : Env) (req : Request) (w : World) :
  (exists r w', Clerk.GET_api_holdings env req w = (Ok r, w')
                /\ (status r = 200 \/ status r = 401 \/ status r = 500))
  /\ (exists r w', Clerk.POST_api_holdings env req w = (Ok r, w')
                   /\ (status r = 201 \/ status r = 400 \/ status r = 401 \/ status r = 500))
  /\ (exists r w', Clerk.DELETE_api_holdings_id env req w = (Ok r, w')
                   /\ (status r = 200 \/ status r = 401 \/ status r = 404 \/ status r = 500))
  /\ (exists r w', Clerk.GET_api_news env req w = (Ok r, w')
                   /\ (status r = 200 \/ status r = 401 \/ status r = 500)).
Proof.
  split; [|split; [|split]].
  - destruct (GET_api_holdings_route env req w) as (r & w' & H & Hs & _). eauto.
  - destruct (POST_api_holdings_route env req w) as (r & w' & H & Hs & _).
    exists r, w'. split; [exact H|]. destruct Hs as [(Hs & _)|(Hs & _)]; tauto.
  - destruct (DELETE_api_holdings_id_route env req w) as (r & w' & H & _ & Hs & _).
    exists r, w'. split; [exact H|].
    destruct Hs as [(Hs & _)|(? & ? & ? & _ & _ & Hs & _)]; tauto.
  - destruct (GET_api_news_route env req w) as (r & w' & H & Hs & _). eauto.
Qed.

(** X7: the two reading routes never write: after [GET /api/holdings] and
    after [GET /api/news] the table and the row counter are what they
    were, for every request and every behaviour of the collaborators. *)
Theorem reading_routes_never_write (env : Env) (req : Request) (w : World) :
  holdings_table (snd (Clerk.GET_api_holdings env req w)) = holdings_table w
  /\ last_row_id (snd (Clerk.GET_api_holdings env req w)) = last_row_id w
  /\ holdings_table (snd (Clerk.GET_api_news env req w)) = holdings_table w
  /\ last_row_id (snd (Clerk.GET_api_news env req w)) = last_row_id w.
Proof.
  destruct (GET_api_holdings_route env req w) as (r & w' & H & _ & Ht & Hl & _).
  destruct (GET_api_news_route env req w) as (r2 & w2 & H2 & _ & Ht2 & Hl2 & _).
  rewrite H, H2. cbn. auto.
Qed.

(** X8: a request reaches the market-data provider only after its token
    has been verified, and then once: the events [GET /api/holdings] and
    [GET /api/news] add to the trace either contain no fetch, or are
    exactly the verification followed by one fetch carrying the Tiingo
    credential.  [POST /api/holdings] and [DELETE /api/holdings/:id] never
    fetch. *)
Theorem provider_called_once_after_verification (env : Env) (req : Request) (w : World) :
  (exists evs,
     trace (snd (Clerk.GET_api_holdings env req w)) = (trace w ++ evs)%list
     /\ (fetch_events evs = []
         \/ exists token payload url,
              clerk_identity env req = Some (token, payload)
              /\ evs = [verification_event env token;
                        EvFetch url (Clerk.tiingo_authorization env)]))
  /\ (exists evs,
        trace (snd (Clerk.GET_api_news env req w)) = (trace w ++ evs)%list
        /\ (fetch_events evs = []
            \/ exists token payload url,
                 clerk_identity env req = Some (token, payload)
                 /\ evs = [verification_event env token;
                           EvFetch url (Clerk.tiingo_authorization env)]))
  /\ (exists evs,
        trace (snd (Clerk.POST_api_holdings env req w)) = (trace w ++ evs)%list
        /\ fetch_events evs = [])
  /\ (exists evs,
        trace (snd (Clerk.DELETE_api_holdings_id env req w)) = (trace w ++ evs)%list
        /\ fetch_events evs = []).
Proof.
  destruct (GET_api_holdings_route env req w) as (r1 & w1 & H1 & _ & _ & _ & E1).
  destruct (GET_api_news_route env req w) as (r2 & w2 & H2 & _ & _ & _ & E2).
  destruct (POST_api_holdings_route env req w) as (r3 & w3 & H3 & _ & E3).
  destruct (DELETE_api_holdings_id_route env req w) as (r4 & w4 & H4 & _ & _ & E4).
  rewrite H1, H2, H3, H4. cbn [snd]. auto.
Qed.

(** ** Ownership *)

Lemma filter_keeps {A : Type} (p : A -> bool) (l : list A) (x : A) :
  In x l -> p x = true -> In x (List.filter p l).
Proof. intros Hin Hp. apply List.filter_In. auto. Qed.

(** X9: [DELETE /api/holdings/:id] never adds a row and never removes a
    row of another owner: every row of the table whose owner is not the
    text the caller's subject is bound as is still there afterwards,
    whatever id was asked for. *)
Theorem delete_spares_other_owners (env : Env) (req : Request) (w : World) (h : Holding) :
  In h (holdings_table w) ->
  (forall token payload,
     clerk_identity env req = Some (token, payload) ->
     d1_bind_text env (subject payload) <> BindText (user_id h)) ->
  In h (holdings_table (snd (Clerk.DELETE_api_holdings_id env req w)))
  /\ forall h', In h' (holdings_table (snd (Clerk.DELETE_api_holdings_id env req w))) ->
                In h' (holdings_table w).
Proof.
  intros Hin Hother.
  destruct (DELETE_api_holdings_id_route env req w) as (r & w' & H & _ & Hcase & _).
  rewrite H. cbn [snd].
  destruct Hcase as [(_ & ->)|(token & payload & u & Hid & Hu & _ & ->)].
  - auto.
  - split.
    + apply filter_keeps; [exact Hin|].
      unfold delete_matches, owned_by.
      destruct (String.eqb (user_id h) u) eqn:E.
      * apply String.eqb_eq in E. subst u. exfalso. exact (Hother _ _ Hid Hu).
      * rewrite andb_false_r. reflexivity.
    + intros h' Hh'. apply List.filter_In in Hh'. tauto.
Qed.

Lemma delete_spares_other_owners_witness :
  In Sample.tsla
     (holdings_table
        (snd (Clerk.DELETE_api_holdings_id Sample.env_down (Sample.delete "token-u1" "3")
                Sample.world)))
  /\ forall h',
       In h' (holdings_table
                (snd (Clerk.DELETE_api_holdings_id Sample.env_down
                        (Sample.delete "token-u1" "3") Sample.world))) ->
       In h' (holdings_table Sample.world).
Proof.
  apply (delete_spares_other_owners Sample.env_down (Sample.delete "token-u1" "3")
           Sample.world Sample.tsla).
  - cbn. auto.
  - intros token payload Hid. vm_compute in Hid. inversion Hid; subst.
    vm_compute. discriminate.
Defined.

(** ** Deleting one's own holding *)

Lemma length_filter_pos {A : Type} (p : A -> bool) (l : list A) (x : A) :
  In x l -> p x = true -> (Z.of_nat (length (List.filter p l)) =? 0) = false.
Proof.
  intros Hin Hp. apply Z.eqb_neq.
  assert (H : In x (List.filter p l)) by (apply List.filter_In; auto).
  destruct (List.filter p l); [destruct H|]. cbn [length]. lia.
Qed.

Lemma delete_api_holdings_id_match (env : Env) (req : Request)
    (user : list (string * json)) (w : World) (u : string) (h : Holding) :
  d1_unavailable env = None ->
  d1_bind_text env (subject user) = BindText u ->
  In h (holdings_table w) ->
  delete_matches env (param_id req) u h = true ->
  Clerk.delete_api_holdings_id env req user w
  = (Ok (mkResponse 200 (Some (JObject [ ("success", JBool true);
                                         ("message", JString "Holding deleted successfully") ]))),
     mkWorld (List.filter (fun h => negb (delete_matches env (param_id req) u h))
                (holdings_table w))
             (last_row_id w) (trace w)).
Proof.
  intros Hup Hbind Hin Hm.
  unfold Clerk.delete_api_holdings_id, try_catch, bind, delete_holding, d1_ready, subject in *.
  rewrite Hup, Hbind. unfold bind, ret. cbn.
  rewrite (length_filter_pos _ _ h Hin Hm). reflexivity.
Qed.

Lemma filter_negb_no_match {A : Type} (p : A -> bool) (l : list A) (x : A) :
  In x (List.filter (fun y => negb (p y)) l) -> p x = false.
Proof. intros H. apply List.filter_In in H as [_ H]. apply negb_true_iff. exact H. Qed.

(** X10: when the caller owns a row with the requested id, the delete
    route answers 200 and removes exactly the rows that have that id and
    that owner; asking again is answered 404 and changes nothing more. *)
Theorem delete_own_holding_then_again (env : Env) (req : Request) (w : World)
    (token : string) (payload : list (string * json)) (u : string) (h : Holding) :
  clerk_identity env req = Some (token, payload) ->
  d1_unavailable env = None ->
  d1_bind_text env (subject payload) = BindText u ->
  In h (holdings_table w) ->
  d1_id_matches env (param_id req) (id h) = true ->
  user_id h = u ->
  fst (Clerk.DELETE_api_holdings_id env req w)
  = Ok (mkResponse 200 (Some (JObject [ ("success", JBool true);
                                        ("message", JString "Holding deleted successfully") ])))
  /\ holdings_table (snd (Clerk.DELETE_api_holdings_id env req w))
     = List.filter (fun h => negb (delete_matches env (param_id req) u h)) (holdings_table w)
  /\ fst (Clerk.DELETE_api_holdings_id env req (snd (Clerk.DELETE_api_holdings_id env req w)))
     = Ok (mkResponse 404 (Some (JObject [("error", JString "Holding not found or unauthorized")])))
  /\ holdings_table
       (snd (Clerk.DELETE_api_holdings_id env req (snd (Clerk.DELETE_api_holdings_id env req w))))
     = holdings_table (snd (Clerk.DELETE_api_holdings_id env req w)).
Proof.
  intros Hid Hup Hbind Hin Hm Hown.
  assert (Hmatch : delete_matches env (param_id req) u h = true).
  { unfold delete_matches, owned_by. rewrite Hm, Hown, String.eqb_refl. reflexivity. }
  unfold Clerk.DELETE_api_holdings_id.
  rewrite (clerk_route_runs_handler _ _ _ _ _ _ Hid) by apply try_catch_answers.
  rewrite (delete_api_holdings_id_match env req payload (verified env token w) u h Hup Hbind Hin Hmatch).
  cbn [fst snd].
  rewrite (clerk_route_runs_handler _ _ _ _ _ _ Hid) by apply try_catch_answers.
  rewrite (delete_api_holdings_id_no_match env req payload _ u Hup Hbind).
  - repeat split.
  - intros h' Hh'. cbn in Hh'. exact (filter_negb_no_match _ _ _ Hh').
Qed.

Lemma delete_own_holding_then_again_witness :
  fst (Clerk.DELETE_api_holdings_id Sample.env_down (Sample.delete "token-u1" "2") Sample.world)
  = Ok (mkResponse 200 (Some (JObject [ ("success", JBool true);
                                        ("message", JString "Holding deleted successfully") ])))
  /\ holdings_table
       (snd (Clerk.DELETE_api_holdings_id Sample.env_down (Sample.delete "token-u1" "2")
               Sample.world))
     = List.filter
         (fun h => negb (delete_matches Sample.env_down
                           (param_id (Sample.delete "token-u1" "2")) "u1" h))
         (holdings_table Sample.world)
  /\ fst (Clerk.DELETE_api_holdings_id Sample.env_down (Sample.delete "token-u1" "2")
            (snd (Clerk.DELETE_api_holdings_id Sample.env_down (Sample.delete "token-u1" "2")
                    Sample.world)))
     = Ok (mkResponse 404 (Some (JObject [("error", JString "Holding not found or unauthorized")])))
  /\ holdings_table
       (snd (Clerk.DELETE_api_holdings_id Sample.env_down (Sample.delete "token-u1" "2")
               (snd (Clerk.DELETE_api_holdings_id Sample.env_down
                       (Sample.delete "token-u1" "2") Sample.world))))
     = holdings_table
         (snd (Clerk.DELETE_api_holdings_id Sample.env_down (Sample.delete "token-u1" "2")
                 Sample.world)).
Proof.
  apply (delete_own_holding_then_again Sample.env_down (Sample.delete "token-u1" "2")
           Sample.world "token-u1" [("sub", JString "u1"); ("iss", JString Sample.issuer)]
           "u1" Sample.msft).
  - reflexivity.
  - reflexivity.
  - reflexivity.
  - cbn. auto.
  - reflexivity.
  - reflexivity.
Defined.

(** ** Creating a holding *)

Lemma is_finite_not_nan (x : float) :
  PrimFloat.is_finite x = true -> PrimFloat.is_nan x = false.
Proof.
  unfold PrimFloat.is_finite. intros H. apply negb_true_iff in H.
  apply orb_false_iff in H. tauto.
Qed.

Lemma post_api_holdings_inserts (env : Env) (req : Request) (user : list (string * json))
    (w : World) (ps : list (string * json)) (u s n : string) (sh ap : float) :
  req_json req = Ok (JObject ps) ->
  truthy (get_named (Json (JObject ps)) "symbol") = true ->
  truthy (get_named (Json (JObject ps)) "name") = true ->
  get_named (Json (JObject ps)) "shares" = Json (JNumber sh) ->
  get_named (Json (JObject ps)) "avg_price" = Json (JNumber ap) ->
  row_valid (mkHolding (last_row_id w + 1) u s n sh ap) = true ->
  d1_unavailable env = None ->
  d1_bind_text env (subject user) = BindText u ->
  d1_bind_text env (get_named (Json (JObject ps)) "symbol") = BindText s ->
  d1_bind_text env (get_named (Json (JObject ps)) "name") = BindText n ->
  Clerk.post_api_holdings env req user w
  = (Ok (mkResponse 201
           (Some (json_normal
                    (JObject [ ("success", JBool true);
                               ("id", JNumber (number_of_Z (last_row_id w + 1)));
                               ("message", JString "Holding added successfully") ])))),
     mkWorld (holdings_table w ++ [mkHolding (last_row_id w + 1) u s n sh ap])
             (last_row_id w + 1) (trace w)).
Proof.
  intros Hbody Hsym Hname Hsh Hap Hvalid Hup Hu Hs Hn.
  unfold row_valid in Hvalid. cbn [shares avg_price] in Hvalid.
  apply andb_prop in Hvalid as [Hvalid Hlt]. apply andb_prop in Hvalid as [Hvalid Hle].
  apply andb_prop in Hvalid as [Hfs Hfa].
  apply negb_true_iff in Hlt, Hle.
  unfold Clerk.post_api_holdings, try_catch, bind, lift. rewrite Hbody.
  cbv zeta. rewrite Hsym, Hname, Hsh, Hap. cbn [negb orb Clerk.is_undefined Clerk.as_number].
  rewrite (is_finite_not_nan _ Hfs), (is_finite_not_nan _ Hfa), Hfs, Hfa. cbn [negb orb].
  rewrite Hle, Hlt.
  unfold insert_holding, bind, d1_ready, ret, subject in *.
  rewrite Hup, Hu, Hs, Hn. reflexivity.
Qed.

Lemma filter_owned_app (u : string) (l : list Holding) (h : Holding) :
  List.filter (owned_by u) (l ++ [h])
  = (List.filter (owned_by u) l ++ (if owned_by u h then [h] else []))%list.
Proof. rewrite List.filter_app. cbn. destruct (owned_by u h); reflexivity. Qed.

(** X11: a create request that passes the checks is answered 201 with the
    new id, one above the row counter; the table gains exactly that row at
    its end, owned by the caller.  The caller's own listing query then
    returns what it returned before followed by the new row, and the
    listing of any subject bound as another text is unchanged. *)
Theorem created_holding_is_listed_for_its_owner (env : Env) (req : Request) (w : World)
    (token : string) (payload : list (string * json))
    (ps : list (string * json)) (u s n : string) (sh ap : float) :
  clerk_identity env req = Some (token, payload) ->
  req_json req = Ok (JObject ps) ->
  truthy (get_named (Json (JObject ps)) "symbol") = true ->
  truthy (get_named (Json (JObject ps)) "name") = true ->
  get_named (Json (JObject ps)) "shares" = Json (JNumber sh) ->
  get_named (Json (JObject ps)) "avg_price" = Json (JNumber ap) ->
  row_valid (mkHolding (last_row_id w + 1) u s n sh ap) = true ->
  d1_unavailable env = None ->
  d1_bind_text env (subject payload) = BindText u ->
  d1_bind_text env (get_named (Json (JObject ps)) "symbol") = BindText s ->
  d1_bind_text env (get_named (Json (JObject ps)) "name") = BindText n ->
  fst (Clerk.POST_api_holdings env req w)
  = Ok (mkResponse 201
          (Some (json_normal
                   (JObject [ ("success", JBool true);
                              ("id", JNumber (number_of_Z (last_row_id w + 1)));
                              ("message", JString "Holding added successfully") ]))))
  /\ holdings_table (snd (Clerk.POST_api_holdings env req w))
     = (holdings_table w ++ [mkHolding (last_row_id w + 1) u s n sh ap])%list
  /\ d1_select env (subject payload) (holdings_table (snd (Clerk.POST_api_holdings env req w)))
     = Ok (List.filter (owned_by u) (holdings_table w)
           ++ [mkHolding (last_row_id w + 1) u s n sh ap])%list
  /\ forall other u',
       d1_bind_text env other = BindText u' -> u' <> u ->
       d1_select env other (holdings_table (snd (Clerk.POST_api_holdings env req w)))
       = d1_select env other (holdings_table w).
Proof.
  intros Hid Hbody Hsym Hname Hsh Hap Hvalid Hup Hu Hs Hn.
  unfold Clerk.POST_api_holdings.
  rewrite (clerk_route_runs_handler _ _ _ _ _ _ Hid) by apply try_catch_answers.
  rewrite (post_api_holdings_inserts env req payload _ ps u s n sh ap); auto.
  cbn [fst snd holdings_table verified log last_row_id].
  split; [reflexivity|]. split; [reflexivity|]. split.
  - unfold d1_select. rewrite Hup, Hu, filter_owned_app.
    unfold owned_by at 2. cbn [user_id]. rewrite String.eqb_refl. reflexivity.
  - intros other u' Ho Hne. unfold d1_select. rewrite Hup, Ho, filter_owned_app.
    unfold owned_by at 2. cbn [user_id].
    destruct (String.eqb u u') eqn:E.
    + apply String.eqb_eq in E. congruence.
    + rewrite app_nil_r. reflexivity.
Qed.

Lemma created_holding_is_listed_for_its_owner_witness :
  fst (Clerk.POST_api_holdings Sample.env_down Scenario.create_aapl Sample.world)
  = Ok (mkResponse 201
          (Some (json_normal
                   (JObject [ ("success", JBool true);
                              ("id", JNumber (number_of_Z (last_row_id Sample.world + 1)));
                              ("message", JString "Holding added successfully") ]))))
  /\ holdings_table (snd (Clerk.POST_api_holdings Sample.env_down Scenario.create_aapl
                            Sample.world))
     = (holdings_table Sample.world
        ++ [mkHolding (last_row_id Sample.world + 1) "u2" "AAPL" "Apple Inc."
              10%float 150%float])%list
  /\ d1_select Sample.env_down (subject Scenario.u2_payload)
       (holdings_table (snd (Clerk.POST_api_holdings Sample.env_down Scenario.create_aapl
                               Sample.world)))
     = Ok (List.filter (owned_by "u2") (holdings_table Sample.world)
           ++ [mkHolding (last_row_id Sample.world + 1) "u2" "AAPL" "Apple Inc."
                 10%float 150%float])%list
  /\ forall other u',
       d1_bind_text Sample.env_down other = BindText u' -> u' <> "u2" ->
       d1_select Sample.env_down other
         (holdings_table (snd (Clerk.POST_api_holdings Sample.env_down Scenario.create_aapl
                                 Sample.world)))
       = d1_select Sample.env_down other (holdings_table Sample.world).
Proof.
  apply (created_holding_is_listed_for_its_owner
           Sample.env_down Scenario.create_aapl Sample.world
           "token-u2" Scenario.u2_payload Scenario.aapl_fields
           "u2" "AAPL" "Apple Inc." 10%float 150%float); reflexivity.
Defined.

(** ** An invariant of the table *)

Lemma filter_keeps_ids_distinct (keep : Holding -> bool) (rows : list Holding) :
  NoDup (map id rows) -> NoDup (map id (List.filter keep rows)).
Proof.
  induction rows as [|x rest IH]; cbn; intros H; [constructor|].
  apply NoDup_cons in H as [Hx Hrest]. destruct (keep x); cbn.
  - apply NoDup_cons. split; [|apply IH; exact Hrest].
    intros Hin. apply Hx.
    apply list_elem_of_In, List.in_map_iff in Hin as (y & Hy & Hin).
    apply list_elem_of_In, List.in_map_iff. exists y. split; [exact Hy|].
    apply List.filter_In in Hin. tauto.
  - apply IH. exact Hrest.
Qed.

Lemma NoDup_map_snoc_fresh (l : list Holding) (h : Holding) (bound : Z) :
  NoDup (map id l) ->
  List.Forall (fun x => id x <= bound) l ->
  bound < id h ->
  NoDup (map id (l ++ [h])).
Proof.
  intros Hnd Hle Hfresh. rewrite List.map_app. cbn [map].
  apply NoDup_app. split; [exact Hnd|]. split; [|apply NoDup_singleton].
  intros i Hi Hi'. apply list_elem_of_singleton in Hi'. subst i.
  apply list_elem_of_In, List.in_map_iff in Hi as (x & Hx & Hin).
  rewrite List.Forall_forall in Hle. specialize (Hle x Hin). lia.
Qed.

(** X12: every route of the holdings API keeps the table well formed:
    if the ids are pairwise distinct and not above the row counter and
    every row passes the checks of the create route (finite numbers,
    [shares] not at or below zero, [avg_price] not below zero), the same
    holds after any request, whatever the collaborators do. *)
Theorem routes_keep_table_well_formed (env : Env) (req : Request) (w : World) :
  World_ok w ->
  World_ok (snd (Clerk.GET_api_holdings env req w))
  /\ World_ok (snd (Clerk.POST_api_holdings env req w))
  /\ World_ok (snd (Clerk.DELETE_api_holdings_id env req w))
  /\ World_ok (snd (Clerk.GET_api_news env req w)).
Proof.
  intros (Hnd & Hle & Hvalid).
  destruct (GET_api_holdings_route env req w) as (r1 & w1 & H1 & _ & Ht1 & Hl1 & _).
  destruct (GET_api_news_route env req w) as (r2 & w2 & H2 & _ & Ht2 & Hl2 & _).
  destruct (POST_api_holdings_route env req w) as (r3 & w3 & H3 & C3 & _).
  destruct (DELETE_api_holdings_id_route env req w) as (r4 & w4 & H4 & Hl4 & C4 & _).
  rewrite H1, H2, H3, H4. cbn [snd]. unfold World_ok.
  split; [|split; [|split]].
  - rewrite Ht1, Hl1. auto.
  - destruct C3 as [(_ & Ht & Hl)|(_ & tk & pl & u & s & n & sh & ap & _ & _ & Hv & Ht & Hl)].
    + rewrite Ht, Hl. auto.
    + rewrite Ht, Hl. split; [|split].
      * apply (NoDup_map_snoc_fresh _ _ (last_row_id w)); [exact Hnd|exact Hle|cbn; lia].
      * apply List.Forall_app. split.
        -- eapply List.Forall_impl; [|exact Hle]. cbn. intros; lia.
        -- constructor; [cbn; lia|constructor].
      * apply List.Forall_app. split; [exact Hvalid|]. constructor; [exact Hv|constructor].
  - rewrite Hl4.
    destruct C4 as [(_ & Ht)|(tk & pl & u & _ & _ & _ & Ht)]; rewrite Ht; [auto|].
    split; [|split].
    + apply filter_keeps_ids_distinct. exact Hnd.
    + rewrite List.Forall_forall in *. intros x Hx.
      apply List.filter_In in Hx. apply Hle. tauto.
    + rewrite List.Forall_forall in *. intros x Hx.
      apply List.filter_In in Hx. apply Hvalid. tauto.
  - rewrite Ht2, Hl2. auto.
Qed.

Lemma routes_keep_table_well_formed_witness :
  World_ok (snd (Clerk.GET_api_holdings Sample.env_down Scenario.create_aapl Sample.world))
  /\ World_ok (snd (Clerk.POST_api_holdings Sample.env_down Scenario.create_aapl Sample.world))
  /\ World_ok (snd (Clerk.DELETE_api_holdings_id Sample.env_down Scenario.create_aapl
                      Sample.world))
  /\ World_ok (snd (Clerk.GET_api_news Sample.env_down Scenario.create_aapl Sample.world)).
Proof.
  apply (routes_keep_table_well_formed Sample.env_down Scenario.create_aapl Sample.world).
  split; [|split].
  - apply (bool_decide_unpack _). vm_compute. exact I.
  - repeat constructor; cbn; lia.
  - repeat constructor.
Defined.

(** ** The price map built from well-formed quotes *)

Lemma find_snoc {A : Type} (p : A -> bool) (l : list A) (x : A) :
  List.find p (l ++ [x])
  = match List.find p l with
    | Some y => Some y
    | None => if p x then Some x else None
    end.
Proof.
  induction l as [|y rest IH]; cbn; [reflexivity|].
  destruct (p y); [reflexivity|exact IH].
Qed.

Lemma last_quote_cons (k : string) (item : json) (rest : list json) :
  last_quote k (item :: rest)
  = match last_quote k rest with
    | Some q => Some q
    | None => if has_ticker k item then Some item else None
    end.
Proof. unfold last_quote. cbn [rev]. apply find_snoc. Qed.

Lemma quote_key (nts : float -> string) (item : json) (k : string) :
  quote_ticker item = Some k ->
  item <> JNull
  /\ to_property_key nts (get_named (Json item) "ticker") = Ok k
  /\ String.eqb k "__proto__" = false.
Proof.
  unfold quote_ticker. destruct item as [| | | | |ps]; try discriminate.
  cbn. destruct (assoc "ticker" ps) as [[| | |s| |]|]; try discriminate.
  destruct (String.eqb s "__proto__") eqn:E; [discriminate|].
  intros H. inversion H; subst. repeat split; auto; discriminate.
Qed.

Lemma forEach_item_quotes (nts : float -> string) (items : list json) (pm0 : PriceMap) :
  forallb is_quote items = true ->
  exists pm,
    forEach_item nts items pm0 = Ok pm
    /\ proto pm = proto pm0
    /\ forall k, own pm !! k = match last_quote k items with
                               | Some q => Some q
                               | None => own pm0 !! k
                               end.
Proof.
  revert pm0. induction items as [|item rest IH]; intros pm0 Hq.
  - exists pm0. repeat split.
  - cbn [forallb] in Hq. apply andb_prop in Hq as [Hitem Hrest].
    unfold is_quote in Hitem. destruct (quote_ticker item) as [k0|] eqn:Hk; [|discriminate].
    destruct (quote_key nts item k0 Hk) as (Hnn & Hkey & Hproto).
    assert (Hstep : forEach_item nts (item :: rest) pm0
                    = forEach_item nts rest
                        (mkPriceMap (<[k0 := item]> (own pm0)) (proto pm0))).
    { cbn [forEach_item]. rewrite Hkey. unfold priceMap_set. rewrite Hproto. cbn [negb].
      destruct item; try reflexivity. congruence. }
    destruct (IH (mkPriceMap (<[k0 := item]> (own pm0)) (proto pm0)) Hrest)
      as (pm & Hpm & Hpr & Hown).
    exists pm. rewrite Hstep. split; [exact Hpm|]. split; [exact Hpr|].
    intros k. rewrite Hown, last_quote_cons. cbn [own].
    destruct (last_quote k rest); [reflexivity|].
    unfold has_ticker. rewrite Hk.
    destruct (String.eqb k k0) eqn:E.
    + apply String.eqb_eq in E. subst k0. apply lookup_insert_eq.
    + apply String.eqb_neq in E. apply lookup_insert_ne. congruence.
Qed.

(** X13: when every item of the provider's array is an object whose
    [ticker] is a string (other than [__proto__]), the price map is built
    without error, keeps [Object.prototype] as its prototype, and holds
    under each ticker the last item of the array that quotes it: a later
    quote for the same ticker replaces an earlier one, and a ticker no item
    quotes has no own property. *)
Theorem price_map_keeps_last_quote (nts : float -> string) (items : list json) :
  forallb is_quote items = true ->
  exists pm,
    build_priceMap nts (JArray items) = Ok pm
    /\ proto pm = None
    /\ forall k, own pm !! k = last_quote k items.
Proof.
  intros Hq. destruct (forEach_item_quotes nts items priceMap_empty Hq) as (pm & H & Hp & Ho).
  exists pm. split; [exact H|]. split; [exact Hp|].
  intros k. rewrite Ho. cbn [own priceMap_empty]. rewrite lookup_empty.
  destruct (last_quote k items); reflexivity.
Qed.

Lemma price_map_keeps_last_quote_witness :
  exists pm,
    build_priceMap Sample.number_text
      (JArray [Sample.quote "AAPL" 190%float; Sample.quote "MSFT" 410.5%float;
               Sample.quote "AAPL" 191.25%float]) = Ok pm
    /\ proto pm = None
    /\ forall k, own pm !! k
                 = last_quote k [Sample.quote "AAPL" 190%float; Sample.quote "MSFT" 410.5%float;
                                 Sample.quote "AAPL" 191.25%float].
Proof.
  apply (price_map_keeps_last_quote Sample.number_text
           [Sample.quote "AAPL" 190%float; Sample.quote "MSFT" 410.5%float;
            Sample.quote "AAPL" 191.25%float]).
  reflexivity.
Defined.

Example last_quote_of_repeated_ticker :
  last_quote "AAPL" [Sample.quote "AAPL" 190%float; Sample.quote "MSFT" 410.5%float;
                     Sample.quote "AAPL" 191.25%float]
  = Some (Sample.quote "AAPL" 191.25%float).
Proof. reflexivity. Qed.

(** ** Enrichment from well-formed quotes *)

Lemma last_quote_is_object (k : string) (items : list json) (q : json) :
  last_quote k items = Some q -> exists ps, q = JObject ps.
Proof.
  unfold last_quote. intros H. apply List.find_some in H as [_ H].
  unfold has_ticker, quote_ticker in H.
  destruct q as [| | | | |ps]; try discriminate. exists ps. reflexivity.
Qed.

Lemma enrich_quoted (pm : PriceMap) (items : list json) (h : Holding) :
  proto pm = None ->
  (forall k, own pm !! k = last_quote k items) ->
  plain_symbol h = true ->
  enrich pm h = quoted items h.
Proof.
  intros Hp Ho Hplain. unfold enrich, quoted, priceMap_get. rewrite Ho, Hp.
  destruct (last_quote (symbol h) items) as [q|] eqn:Hq.
  - destruct (last_quote_is_object _ _ _ Hq) as [ps ->]. reflexivity.
  - unfold plain_symbol in Hplain. apply andb_prop in Hplain as [Hm Hpr].
    apply negb_true_iff in Hm, Hpr. rewrite Hpr, Hm. reflexivity.
Qed.

(** X14: the enrichment end to end.  When the provider answers with an
    array of well-formed quotes, an authenticated [GET /api/holdings]
    answers 200 with the caller's rows in table order, each carrying the
    last quote of the array for exactly its symbol as [priceData] and that
    quote's [last] (when truthy) as [currentPrice], or [null] in both
    fields when the array has no quote for the symbol.  The symbols are
    taken to name no member inherited from [Object.prototype]. *)
Theorem holdings_enriched_with_last_quotes (env : Env) (req : Request) (w : World)
    (token : string) (payload : list (string * json))
    (holdings : list Holding) (resp : FetchResponse) (items : list json) :
  clerk_identity env req = Some (token, payload) ->
  d1_select env (subject payload) (holdings_table w) = Ok holdings ->
  holdings <> [] ->
  fetch env (price_url holdings) (Clerk.tiingo_authorization env) = Ok resp ->
  ok resp = true ->
  json_body resp = Ok (JArray items) ->
  forallb is_quote items = true ->
  forallb plain_symbol holdings = true ->
  fst (Clerk.GET_api_holdings env req w)
  = Ok (mkResponse 200 (Some (JArray (map (fun h => enriched_json (quoted items h)) holdings)))).
Proof.
  intros Hid Hsel Hne Hfetch Hok Hbody Hq Hplain.
  destruct (forEach_item_quotes (number_to_string env) items priceMap_empty Hq)
    as (pm & Hpm & Hp & Ho).
  unfold Clerk.GET_api_holdings.
  rewrite (clerk_route_runs_handler _ _ _ _ _ _ Hid) by apply try_catch_answers.
  rewrite (get_api_holdings_merges env payload _ holdings resp (JArray items) pm); auto.
  cbn [fst]. unfold respond, enrichedHoldings. rewrite List.map_map. do 4 f_equal.
  apply List.map_ext_in. intros h Hh. f_equal.
  apply enrich_quoted.
  - exact Hp.
  - intros k. rewrite Ho. cbn [own priceMap_empty]. rewrite lookup_empty.
    destruct (last_quote k items); reflexivity.
  - rewrite forallb_forall in Hplain. apply Hplain. exact Hh.
Qed.

Lemma holdings_enriched_with_last_quotes_witness :
  fst (Clerk.GET_api_holdings
         (Sample.env Sample.issuer
            (Sample.provider_quotes [Sample.quote "AAPL" 190%float;
                                     Sample.quote "AAPL" 191.25%float]))
         (Sample.request "token-u1") Sample.world)
  = Ok (mkResponse 200
          (Some (JArray (map (fun h => enriched_json
                                         (quoted [Sample.quote "AAPL" 190%float;
                                                  Sample.quote "AAPL" 191.25%float] h))
                             [Sample.aapl; Sample.msft])))).
Proof.
  apply (holdings_enriched_with_last_quotes
           (Sample.env Sample.issuer
              (Sample.provider_quotes [Sample.quote "AAPL" 190%float;
                                       Sample.quote "AAPL" 191.25%float]))
           (Sample.request "token-u1") Sample.world
           "token-u1" Scenario.u1_payload [Sample.aapl; Sample.msft]
           (mkFetchResponse true (Ok (JArray [Sample.quote "AAPL" 190%float;
                                              Sample.quote "AAPL" 191.25%float])))
           [Sample.quote "AAPL" 190%float; Sample.quote "AAPL" 191.25%float]);
    try reflexivity.
  discriminate.
Defined.

(** ** Listing shows only the caller's rows *)

Lemma get_api_holdings_items (env : Env) (user : list (string * json)) (w : World)
    (r : Response) (w' : World) (items : list json) :
  Clerk.get_api_holdings env user w = (Ok r, w') ->
  body r = Some (JArray items) ->
  exists holdings,
    d1_select env (subject user) (holdings_table w) = Ok holdings
    /\ forall item, In item items ->
         exists h ps,
           In h holdings /\ item = JObject ps
           /\ assoc "user_id" ps = Some (JString (user_id h))
           /\ assoc "symbol" ps = Some (JString (symbol h)).
Proof.
  unfold Clerk.get_api_holdings, try_catch, bind, select_holdings, Clerk.call_fetch,
    bind, emit, lift, ret, subject.
  destruct (d1_select env _ (holdings_table w)) as [holdings|e].
  2:{ intros H Hb. inversion H; subst. discriminate Hb. }
  destruct (length holdings =? 0)%nat.
  { intros H Hb. inversion H; subst. cbn in Hb. inversion Hb; subst.
    exists holdings. split; [reflexivity|]. intros item []. }
  destruct (fetch env _ _) as [resp|e].
  2:{ intros H Hb. inversion H; subst. discriminate Hb. }
  destruct (ok resp); cbn [negb].
  2:{ intros H Hb. inversion H; subst. cbn in Hb. inversion Hb; subst.
      exists holdings. split; [reflexivity|]. intros item Hin.
      rewrite List.map_map in Hin. apply List.in_map_iff in Hin as (h & <- & Hh).
      exists h. eexists. split; [exact Hh|]. split; [reflexivity|]. split; reflexivity. }
  destruct (json_body resp) as [data|e].
  2:{ intros H Hb. inversion H; subst. discriminate Hb. }
  destruct (build_priceMap _ data) as [pm|e].
  2:{ intros H Hb. inversion H; subst. discriminate Hb. }
  intros H Hb. inversion H; subst. cbn in Hb. inversion Hb; subst.
  exists holdings. split; [reflexivity|]. intros item Hin.
  unfold enrichedHoldings in Hin. rewrite List.map_map in Hin.
  apply List.in_map_iff in Hin as (h & <- & Hh).
  exists h. eexists. split; [exact Hh|]. split; [reflexivity|]. split; reflexivity.
Qed.

(** X15: [GET /api/holdings] shows a caller nothing but their own rows:
    whenever it answers with an array, every element is an object made
    from a row of the table whose owner is the text the caller's verified
    subject is bound as, and it carries that owner in [user_id]. *)
Theorem holdings_lists_only_own_rows (env : Env) (req : Request) (w : World)
    (r : Response) (w' : World) (items : list json) (item : json) :
  Clerk.GET_api_holdings env req w = (Ok r, w') ->
  body r = Some (JArray items) ->
  In item items ->
  exists token payload u h ps,
    clerk_identity env req = Some (token, payload)
    /\ d1_bind_text env (subject payload) = BindText u
    /\ In h (holdings_table w)
    /\ user_id h = u
    /\ item = JObject ps
    /\ assoc "user_id" ps = Some (JString u)
    /\ assoc "symbol" ps = Some (JString (symbol h)).
Proof.
  intros Hrun Hbody Hin. unfold Clerk.GET_api_holdings in Hrun.
  destruct (clerk_gate env req (Clerk.get_api_holdings env) w)
    as [(Hnone & _)|(token & payload & Hid & Hr)].
  { destruct (clerk_middleware_rejects env req (Clerk.get_api_holdings env) w Hnone)
      as (r1 & w1 & Hr1 & Hcase & _).
    rewrite Hrun in Hr1. inversion Hr1; subst.
    destruct Hcase as [->| ->]; discriminate Hbody. }
  destruct (get_api_holdings_answers env payload (verified env token w)) as (r1 & w1 & Hn).
  rewrite Hr, (try_catch_ok _ _ _ _ _ Hn) in Hrun. inversion Hrun; subst.
  destruct (get_api_holdings_items env payload _ r w' items Hn Hbody) as (holdings & Hsel & Hitems).
  destruct (Hitems item Hin) as (h & ps & Hh & -> & Hu & Hs).
  cbn [holdings_table verified log] in Hsel. unfold d1_select in Hsel.
  destruct (d1_unavailable env); [discriminate|].
  destruct (d1_bind_text env (subject payload)) as [e| |u] eqn:Hb; try discriminate.
  - inversion Hsel; subst. destruct Hh.
  - inversion Hsel; subst. apply List.filter_In in Hh as [Hh Hown].
    unfold owned_by in Hown. apply String.eqb_eq in Hown.
    exists token, payload, u, h, ps. rewrite Hown in Hu. repeat split; auto.
Qed.

Lemma holdings_lists_only_own_rows_witness :
  exists token payload u h ps,
    clerk_identity Sample.env_down (Sample.request "token-u1") = Some (token, payload)
    /\ d1_bind_text Sample.env_down (subject payload) = BindText u
    /\ In h (holdings_table Sample.world)
    /\ user_id h = u
    /\ json_normal (holding_json Sample.msft) = JObject ps
    /\ assoc "user_id" ps = Some (JString u)
    /\ assoc "symbol" ps = Some (JString (symbol h)).
Proof.
  apply (holdings_lists_only_own_rows
           Sample.env_down (Sample.request "token-u1") Sample.world
           (c_json (Json (JArray (map holding_json [Sample.aapl; Sample.msft]))) 200)
           (log (EvFetch (price_url [Sample.aapl; Sample.msft])
                   (Clerk.tiingo_authorization Sample.env_down))
                (verified Sample.env_down "token-u1" Sample.world))
           (map json_normal (map holding_json [Sample.aapl; Sample.msft]))
           (json_normal (holding_json Sample.msft))).
  - vm_compute. reflexivity.
  - reflexivity.
  - cbn [map In]. auto.
Defined.

(** ** Object literals *)

Lemma assoc_put (k k' : string) (v : value) (o : list (string * value)) :
  assoc k (put k' v o) = if String.eqb k k' then Some v else assoc k o.
Proof.
  induction o as [|[k0 v0] rest IH]; cbn.
  - destruct (String.eqb k k'); reflexivity.
  - destruct (String.eqb k' k0) eqn:E; cbn.
    + apply String.eqb_eq in E. subst k0. destruct (String.eqb k k'); reflexivity.
    + destruct (String.eqb k k0) eqn:E0.
      * apply String.eqb_eq in E0. subst k0.
        rewrite String.eqb_sym in E. rewrite E. reflexivity.
      * exact IH.
Qed.

Lemma keys_put (k : string) (v : value) (o : list (string * value)) :
  NoDup (map fst o) -> NoDup (map fst (put k v o)).
Proof.
  intros Hnd.
  induction o as [|[k0 v0] rest IH]; cbn.
  - apply NoDup_singleton.
  - cbn in Hnd. apply NoDup_cons in Hnd as [Hk0 Hrest].
    destruct (String.eqb k k0) eqn:E; cbn.
    + apply String.eqb_eq in E. subst k0. apply NoDup_cons. auto.
    + apply NoDup_cons. split; [|apply IH; exact Hrest].
      intros Hin. apply Hk0. clear IH Hk0 Hrest.
      induction rest as [|[k1 v1] rest' IH']; cbn in *.
      * apply list_elem_of_singleton in Hin. subst k0.
        rewrite String.eqb_refl in E. discriminate.
      * destruct (String.eqb k k1) eqn:E1; cbn in Hin.
        -- apply String.eqb_eq in E1. subst k1. exact Hin.
        -- apply elem_of_cons in Hin as [->|Hin]; apply elem_of_cons; auto.
Qed.

Lemma assoc_spread (src : list (string * json)) (o : list (string * value)) (k : string) :
  assoc k (spread src o)
  = match assoc k src with
    | Some j => Some (Json j)
    | None => assoc k o
    end.
Proof.
  unfold spread.
  assert (Hgen : forall (l : list (string * json)) (o : list (string * value)),
            assoc k (fold_left (fun acc kv =>
                                  match assoc (fst kv) src with
                                  | Some j => put (fst kv) (Json j) acc
                                  | None => acc
                                  end) l o)
            = if existsb (fun kv => String.eqb k (fst kv)) l
              then match assoc k src with
                   | Some j => Some (Json j)
                   | None => assoc k o
                   end
              else assoc k o).
  { clear o. induction l as [|kv rest IH]; intros o; [reflexivity|].
    cbn [fold_left existsb]. rewrite IH.
    destruct (String.eqb k (fst kv)) eqn:E.
    - apply String.eqb_eq in E. subst k. cbn [orb].
      destruct (assoc (fst kv) src) as [j|].
      + rewrite assoc_put, String.eqb_refl. destruct (existsb _ rest); reflexivity.
      + destruct (existsb _ rest); reflexivity.
    - cbn [orb]. destruct (assoc (fst kv) src) as [j|].
      + rewrite assoc_put, E. reflexivity.
      + reflexivity. }
  rewrite Hgen.
  destruct (existsb (fun kv => String.eqb k (fst kv)) src) eqn:Hex; [reflexivity|].
  assert (Hnone : assoc k src = None).
  { clear Hgen. induction src as [|[k0 v0] rest IH]; [reflexivity|].
    cbn in Hex. apply orb_false_iff in Hex as [E Hrest].
    cbn. rewrite E. apply IH. exact Hrest. }
  rewrite Hnone. reflexivity.
Qed.

Lemma keys_spread (src : list (string * json)) (o : list (string * value)) :
  NoDup (map fst o) -> NoDup (map fst (spread src o)).
Proof.
  unfold spread.
  assert (Hgen : forall (l : list (string * json)) (o : list (string * value)),
            NoDup (map fst o) ->
            NoDup (map fst (fold_left (fun acc kv =>
                                         match assoc (fst kv) src with
                                         | Some j => put (fst kv) (Json j) acc
                                         | None => acc
                                         end) l o))).
  { induction l as [|kv rest IH]; intros o' Hnd; [exact Hnd|].
    cbn [fold_left]. apply IH.
    destruct (assoc (fst kv) src); [apply keys_put|]; exact Hnd. }
  apply Hgen.
Qed.

Lemma assoc_absent {A : Type} (k : string) (o : list (string * A)) :
  k ∉ map fst o -> assoc k o = None.
Proof.
  induction o as [|[k0 v0] rest IH]; [reflexivity|].
  cbn. intros Hk. apply not_elem_of_cons in Hk as [Hne Hrest].
  destruct (String.eqb k k0) eqn:E; [apply String.eqb_eq in E; congruence|].
  apply IH. exact Hrest.
Qed.

Lemma assoc_stringify_props (k : string) (o : list (string * value)) :
  NoDup (map fst o) ->
  assoc k (stringify_props o)
  = match assoc k o with
    | Some v => stringify v
    | None => None
    end.
Proof.
  induction o as [|[k0 v0] rest IH]; [reflexivity|].
  cbn [map fst]. intros Hnd. apply NoDup_cons in Hnd as [Hk0 Hrest].
  unfold stringify_props in *. cbn [flat_map fst snd]. unfold property at 1.
  cbn [assoc]. destruct (String.eqb k k0) eqn:E.
  - apply String.eqb_eq in E. subst k0.
    destruct (stringify v0) as [j|].
    + cbn. rewrite String.eqb_refl. reflexivity.
    + cbn [app]. rewrite (IH Hrest), (assoc_absent _ _ Hk0). reflexivity.
  - destruct (stringify v0) as [j|]; cbn; [rewrite E|]; apply IH; exact Hrest.
Qed.

(** ** GET /api/private *)

(** X16: the Clerk identity echo.  An authenticated [GET /api/private] is
    answered 200 with the message and a [user] object holding every claim
    of the verified payload; its [id] is the payload's own [id] claim when
    it has one, since the spread comes after [id: user.sub], and the [sub]
    claim otherwise; with neither, the object has no [id]. *)
Theorem private_echoes_payload (env : Env) (req : Request) (w : World)
    (token : string) (payload : list (string * json)) :
  clerk_identity env req = Some (token, payload) ->
  exists user,
    fst (Worker.GET_api_private env req w)
    = Ok (mkResponse 200
            (Some (JObject [ ("message", JString "Secure data accessed successfully!");
                             ("user", JObject user) ])))
    /\ assoc "id" user
       = json_normal <$> (match assoc "id" payload with
                          | Some claim => Some claim
                          | None => assoc "sub" payload
                          end)
    /\ forall k, k <> "id" -> assoc k user = json_normal <$> assoc k payload.
Proof.
  intros Hid.
  exists (stringify_props (spread payload [("id", subject payload)])).
  assert (Hnd : NoDup (map fst (spread payload [("id", subject payload)]))).
  { apply keys_spread. cbn. apply NoDup_singleton. }
  split; [|split].
  - unfold Worker.GET_api_private.
    rewrite (clerk_route_runs_handler _ _ _ _ _ _ Hid) by (eexists _, _; reflexivity).
    reflexivity.
  - rewrite (assoc_stringify_props _ _ Hnd), assoc_spread.
    destruct (assoc "id" payload) as [j|]; [reflexivity|].
    cbn. unfold subject, get_named, user_value.
    destruct (assoc "sub" payload); reflexivity.
  - intros k Hk. rewrite (assoc_stringify_props _ _ Hnd), assoc_spread.
    destruct (assoc k payload) as [j|]; [reflexivity|].
    cbn. apply String.eqb_neq in Hk. rewrite Hk. reflexivity.
Qed.

Lemma private_echoes_payload_witness :
  exists user,
    fst (Worker.GET_api_private Sample.env_down (Sample.request "token-u1") Sample.world)
    = Ok (mkResponse 200
            (Some (JObject [ ("message", JString "Secure data accessed successfully!");
                             ("user", JObject user) ])))
    /\ assoc "id" user
       = json_normal <$> (match assoc "id" Scenario.u1_payload with
                          | Some claim => Some claim
                          | None => assoc "sub" Scenario.u1_payload
                          end)
    /\ forall k, k <> "id" -> assoc k user = json_normal <$> assoc k Scenario.u1_payload.
Proof.
  apply (private_echoes_payload Sample.env_down (Sample.request "token-u1") Sample.world
           "token-u1" Scenario.u1_payload).
  reflexivity.
Defined.

(** A token with an [id] claim of its own is echoed with that [id], not
    with its subject. *)
Example private_id_claim_overrides_sub :
  fst (Worker.get_api_private [("sub", JString "u1"); ("id", JString "admin")] Sample.world)
  = Ok (mkResponse 200
          (Some (JObject [ ("message", JString "Secure data accessed successfully!");
                           ("user", JObject [ ("id", JString "admin");
                                              ("sub", JString "u1") ]) ]))).
Proof. reflexivity. Qed.




(** ** GET /api/search *)

Lemma encode_head (c : ascii) (rest : string) :
  uri_head (encodeURIComponent (String c rest)) = Some (c, encodeURIComponent rest).
Proof. destruct c as [[] [] [] [] [] [] [] []]; reflexivity. Qed.

Lemma encode_chars (s : string) :
  string_forallb uri_component_char (encodeURIComponent s) = true.
Proof.
  induction s as [|c rest IH]; [reflexivity|].
  destruct c as [[] [] [] [] [] [] [] []]; cbn; exact IH.
Qed.

Lemma encode_injective (s1 s2 : string) :
  encodeURIComponent s1 = encodeURIComponent s2 -> s1 = s2.
Proof.
  revert s2. induction s1 as [|c1 r1 IH]; intros [|c2 r2] H.
  - reflexivity.
  - apply (f_equal uri_head) in H. rewrite encode_head in H. discriminate H.
  - apply (f_equal uri_head) in H. rewrite encode_head in H. discriminate H.
  - apply (f_equal uri_head) in H. rewrite !encode_head in H.
    inversion H; subst. f_equal. apply IH. assumption.
Qed.

Lemma append_injective (p a b : string) : p ++ a = p ++ b -> a = b.
Proof.
  induction p as [|c p IH]; cbn; intros H; [exact H|].
  inversion H. apply IH. assumption.
Qed.

(** X18: the search URL is the fixed Tiingo endpoint followed by the
    encoded query, which consists of unreserved characters and percent
    escapes only, so the query cannot add a parameter, a fragment or a
    path to the request; and two different queries are never sent as the
    same URL. *)
Theorem search_url_is_safe_and_faithful (q1 q2 : string) :
  search_url q1
  = "https://api.tiingo.com/tiingo/utilities/search?query=" ++ encodeURIComponent q1
  /\ string_forallb uri_component_char (encodeURIComponent q1) = true
  /\ (search_url q1 = search_url q2 -> q1 = q2).
Proof.
  split; [reflexivity|]. split; [apply encode_chars|].
  unfold search_url. intros H. apply append_injective in H.
  apply encode_injective. exact H.
Qed.

Example search_url_of_query_with_ampersand :
  search_url "a&b=c d"
  = "https://api.tiingo.com/tiingo/utilities/search?query=a%26b%3Dc%20d".
Proof. reflexivity. Qed.

Lemma get_api_search_answers (env : Env) (query : option string) (w : World) :
  exists r w', Worker.get_api_search env query w = (Ok r, w').
Proof.
  unfold Worker.get_api_search. destruct query as [q|]; [|eexists _, _; reflexivity].
  destruct (String.eqb q ""); [eexists _, _; reflexivity|]. apply try_catch_answers.
Qed.

(** X19: the search route behind the middleware.  For a verified caller:
    a missing or empty query is answered 400 without any request to the
    provider; otherwise exactly one request goes to the search URL of the
    query, and the answer is the provider's JSON with 200 when it
    succeeds, 500 "Failed to fetch search results" when its status is not
    a success, and 500 "Search request failed" with the exception's
    message when the request or the reading of its body throws. *)
Theorem search_route_outcomes (env : Env) (req : Request) (w : World)
    (token : string) (payload : list (string * json)) (query : option string) :
  clerk_identity env req = Some (token, payload) ->
  match query with
  | None =>
      Worker.GET_api_search env req query w
      = (Ok (mkResponse 400 (Some (JObject [("error", JString "Query parameter is required")]))),
         verified env token w)
  | Some q =>
      if String.eqb q ""
      then Worker.GET_api_search env req query w
           = (Ok (mkResponse 400
                    (Some (JObject [("error", JString "Query parameter is required")]))),
              verified env token w)
      else
        snd (Worker.GET_api_search env req query w)
        = log (EvFetch (search_url q) (Clerk.tiingo_authorization env)) (verified env token w)
        /\ fst (Worker.GET_api_search env req query w)
           = match fetch env (search_url q) (Clerk.tiingo_authorization env) with
             | Throw e =>
                 Ok (mkResponse 500
                       (Some (JObject [ ("error", JString "Search request failed");
                                        ("details", JString (errorMessage e)) ])))
             | Ok response =>
                 if ok response
                 then match json_body response with
                      | Ok data => Ok (mkResponse 200 (Some (json_normal data)))
                      | Throw e =>
                          Ok (mkResponse 500
                                (Some (JObject [ ("error", JString "Search request failed");
                                                 ("details", JString (errorMessage e)) ])))
                      end
                 else Ok (mkResponse 500
                            (Some (JObject [("error", JString "Failed to fetch search results")])))
             end
  end.
Proof.
  intros Hid. unfold Worker.GET_api_search.
  rewrite (clerk_route_runs_handler _ _ _ _ _ _ Hid) by apply get_api_search_answers.
  unfold Worker.get_api_search.
  destruct query as [q|]; [|reflexivity].
  destruct (String.eqb q ""); [reflexivity|].
  unfold try_catch, bind, Clerk.call_fetch, bind, emit, lift, ret.
  destruct (fetch env (search_url q) (Clerk.tiingo_authorization env)) as [resp|e];
    [|split; reflexivity].
  destruct (ok resp); cbn [negb]; [|split; reflexivity].
  destruct (json_body resp); split; reflexivity.
Qed.

Lemma search_route_outcomes_witness :
  snd (Worker.GET_api_search Sample.env_down (Sample.request "token-u1") (Some "apple")
         Sample.world)
  = log (EvFetch (search_url "apple") (Clerk.tiingo_authorization Sample.env_down))
        (verified Sample.env_down "token-u1" Sample.world)
  /\ fst (Worker.GET_api_search Sample.env_down (Sample.request "token-u1") (Some "apple")
            Sample.world)
     = match fetch Sample.env_down (search_url "apple")
               (Clerk.tiingo_authorization Sample.env_down) with
       | Throw e =>
           Ok (mkResponse 500
                 (Some (JObject [ ("error", JString "Search request failed");
                                  ("details", JString (errorMessage e)) ])))
       | Ok response =>
           if ok response
           then match json_body response with
                | Ok data => Ok (mkResponse 200 (Some (json_normal data)))
                | Throw e =>
                    Ok (mkResponse 500
                          (Some (JObject [ ("error", JString "Search request failed");
                                           ("details", JString (errorMessage e)) ])))
                end
           else Ok (mkResponse 500
                      (Some (JObject [("error", JString "Failed to fetch search results")])))
       end.
Proof.
  apply (search_route_outcomes Sample.env_down (Sample.request "token-u1") Sample.world
           "token-u1" Scenario.u1_payload (Some "apple")).
  reflexivity.
Defined.

(** ** The batched quote request *)

Lemma existsb_eqb_elem (x : string) (seen : list string) :
  existsb (String.eqb x) seen = true <-> x ∈ seen.
Proof.
  rewrite List.existsb_exists. split.
  - intros (y & Hy & E). apply String.eqb_eq in E. subst y. apply list_elem_of_In. exact Hy.
  - intros H. exists x. split; [apply list_elem_of_In; exact H|apply String.eqb_refl].
Qed.

Lemma uniq_spec (seen l : list string) :
  NoDup (uniq seen l) /\ forall x, x ∈ uniq seen l <-> x ∈ l /\ x ∉ seen.
Proof.
  revert seen. induction l as [|y rest IH]; intros seen.
  - cbn. split; [apply NoDup_nil_2|]. intros x. split; [intros H|intros [H _]];
      apply elem_of_nil in H; destruct H.
  - cbn [uniq]. destruct (existsb (String.eqb y) seen) eqn:E.
    + destruct (IH seen) as [Hnd Hin]. split; [exact Hnd|].
      apply existsb_eqb_elem in E.
      intros x. rewrite Hin, elem_of_cons. split; [tauto|].
      intros [[->|H] Hs]; [contradiction|tauto].
    + destruct (IH (y :: seen)) as [Hnd Hin]. split.
      * apply NoDup_cons. split; [|exact Hnd].
        rewrite Hin. intros [_ H]. apply H. apply elem_of_cons. auto.
      * assert (Hy : y ∉ seen).
        { intros H. apply existsb_eqb_elem in H. congruence. }
        intros x. rewrite !elem_of_cons, Hin, not_elem_of_cons.
        split.
        -- intros [->|(H1 & H2 & H3)]; tauto.
        -- intros [[->|H] Hs]; [tauto|].
           destruct (String.eqb x y) eqn:Exy.
           ++ apply String.eqb_eq in Exy. tauto.
           ++ apply String.eqb_neq in Exy. tauto.
Qed.

(** X20: the one quote request of [GET /api/holdings] names each symbol
    among the caller's rows exactly once: its [tickers] parameter is the
    comma-joined list of the distinct symbols, that list has no
    repetition, and a symbol is in it exactly when some row has it. *)
Theorem price_url_lists_each_symbol_once (holdings : list Holding) :
  price_url holdings
  = "https://api.tiingo.com/iex/?tickers="
    ++ String.concat "," (uniq [] (map symbol holdings))
  /\ NoDup (uniq [] (map symbol holdings))
  /\ forall s, s ∈ uniq [] (map symbol holdings) <-> exists h, In h holdings /\ symbol h = s.
Proof.
  split; [reflexivity|]. destruct (uniq_spec [] (map symbol holdings)) as [Hnd Hin].
  split; [exact Hnd|]. intros s. rewrite Hin. split.
  - intros [H _]. apply list_elem_of_In, List.in_map_iff in H as (h & Hs & Hh). eauto.
  - intros (h & Hh & Hs). split; [|apply not_elem_of_nil].
    apply list_elem_of_In, List.in_map_iff. eauto.
Qed.

(** ** Malformed input *)

Lemma forEach_item_null (nts : float -> string) (items : list json) (pm : PriceMap) :
  In JNull items -> exists e, forEach_item nts items pm = Throw e.
Proof.
  revert pm. induction items as [|item rest IH]; intros pm Hin; [destruct Hin|].
  destruct Hin as [->|Hin]; [eexists; reflexivity|].
  destruct item; try (eexists; reflexivity);
    cbn [forEach_item];
    destruct (to_property_key nts _) as [k|e]; try (eexists; reflexivity);
    apply IH; exact Hin.
Qed.

(** X21: a successful provider response is not always survivable.  When
    reading its body throws, or when the body is an array that has a
    [null] element, an authenticated [GET /api/holdings] of a subject with
    holdings is answered 500 "Failed to fetch holdings" with the
    exception's message, and no holding is returned; only a body that is
    not an array degrades to unpriced holdings. *)
Theorem holdings_malformed_quotes_is_500 (env : Env) (req : Request) (w : World)
    (token : string) (payload : list (string * json))
    (holdings : list Holding) (resp : FetchResponse) :
  clerk_identity env req = Some (token, payload) ->
  d1_select env (subject payload) (holdings_table w) = Ok holdings ->
  holdings <> [] ->
  fetch env (price_url holdings) (Clerk.tiingo_authorization env) = Ok resp ->
  ok resp = true ->
  (exists e, json_body resp = Throw e)
  \/ (exists items, json_body resp = Ok (JArray items) /\ In JNull items) ->
  exists details,
    fst (Clerk.GET_api_holdings env req w)
    = Ok (mkResponse 500 (Some (JObject [ ("error", JString "Failed to fetch holdings");
                                          ("details", JString details) ]))).
Proof.
  intros Hid Hsel Hne Hfetch Hok Hbad.
  unfold Clerk.GET_api_holdings.
  rewrite (clerk_route_runs_handler _ _ _ _ _ _ Hid) by apply try_catch_answers.
  apply length_zero_iff_nil in Hne.
  unfold Clerk.get_api_holdings, try_catch, bind, select_holdings, subject in *.
  cbn [holdings_table verified log]. rewrite Hsel, Hne.
  unfold Clerk.call_fetch, bind, emit, lift, price_url in *.
  rewrite Hfetch, Hok. cbn [negb].
  destruct Hbad as [(e & He)|(items & Hb & Hnull)].
  - rewrite He. eexists. reflexivity.
  - rewrite Hb. cbn [build_priceMap].
    destruct (forEach_item_null (number_to_string env) items priceMap_empty Hnull) as (e & He).
    rewrite He. eexists. reflexivity.
Qed.

Lemma holdings_malformed_quotes_is_500_witness :
  exists details,
    fst (Clerk.GET_api_holdings
           (Sample.env Sample.issuer
              (Sample.provider_quotes [Sample.quote "AAPL" 190%float; JNull]))
           (Sample.request "token-u1") Sample.world)
    = Ok (mkResponse 500 (Some (JObject [ ("error", JString "Failed to fetch holdings");
                                          ("details", JString details) ]))).
Proof.
  apply (holdings_malformed_quotes_is_500
           (Sample.env Sample.issuer
              (Sample.provider_quotes [Sample.quote "AAPL" 190%float; JNull]))
           (Sample.request "token-u1") Sample.world
           "token-u1" Scenario.u1_payload [Sample.aapl; Sample.msft]
           (mkFetchResponse true (Ok (JArray [Sample.quote "AAPL" 190%float; JNull])))).
  - reflexivity.
  - reflexivity.
  - discriminate.
  - reflexivity.
  - reflexivity.
  - right. exists [Sample.quote "AAPL" 190%float; JNull]. split; [reflexivity|].
    cbn. auto.
Defined.

(** X22: a create request whose body cannot be read as JSON, or whose
    body is [null], is not answered with a validation error: it is caught
    by the handler's [catch] block and answered 500 "Failed to create
    holding", and nothing is inserted. *)
Theorem unreadable_body_is_500_not_400 (env : Env) (req : Request) (w : World)
    (token : string) (payload : list (string * json)) :
  clerk_identity env req = Some (token, payload) ->
  (exists e, req_json req = Throw e) \/ req_json req = Ok JNull ->
  exists details,
    Clerk.POST_api_holdings env req w
    = (Ok (mkResponse 500 (Some (JObject [ ("error", JString "Failed to create holding");
                                           ("details", JString details) ]))),
       verified env token w).
Proof.
  intros Hid Hbad. unfold Clerk.POST_api_holdings.
  rewrite (clerk_route_runs_handler _ _ _ _ _ _ Hid) by apply try_catch_answers.
  unfold Clerk.post_api_holdings, try_catch, bind, lift.
  destruct Hbad as [(e & ->)| ->]; eexists; reflexivity.
Qed.

Lemma unreadable_body_is_500_not_400_witness :
  exists details,
    Clerk.POST_api_holdings Sample.env_down (Sample.post "token-u1" JNull) Sample.world
    = (Ok (mkResponse 500 (Some (JObject [ ("error", JString "Failed to create holding");
                                           ("details", JString details) ]))),
       verified Sample.env_down "token-u1" Sample.world).
Proof.
  apply (unreadable_body_is_500_not_400 Sample.env_down (Sample.post "token-u1" JNull)
           Sample.world "token-u1" Scenario.u1_payload).
  - reflexivity.
  - right. reflexivity.
Defined.
